(** * xbstrap: status check and fetch of source repositories

    A shallow embedding of [xbstrap/vcs_utils.py] ([check_repo] and
    [fetch_repo]) together with the properties of the status evaluator and
    of the fetch executor that follow from the code.

    Conventions of the embedding:
    - a Python [str] is represented by its UTF-8 encoding, a [string] of
      bytes; concatenation, equality and dictionary membership of [str]
      values coincide with those of their encodings;
    - a YAML mapping is a [gmap string yval];
    - the operating system (file system, PATH, child processes, network) is
      an interface [OS] over an abstract file-system state; a Python
      function becomes a computation that threads the file-system state,
      may raise, and records the child processes it starts. *)

From Stdlib Require Import ZArith Ascii String List Lia.
From stdpp Require Import base option gmap strings list.

Local Open Scope string_scope.
Local Open Scope list_scope.
Local Open Scope Z_scope.

(** ** Python strings *)

Module PyStr.

Definition code (c : ascii) : N := N_of_ascii c.

Definition LF : ascii := "010"%char.
Definition CR : ascii := "013"%char.
Definition TAB : ascii := "009"%char.
Definition SPACE : ascii := " "%char.

Definition nl : string := String LF "".
Definition tab : string := String TAB "".

Definition in_range (lo hi : N) (c : ascii) : bool :=
  ((lo <=? code c) && (code c <=? hi))%N.

Definition is_ascii (c : ascii) : bool := (code c <? 128)%N.
Definition is_cont (c : ascii) : bool := in_range 128 191 c.

(** [bytes.decode()] with the default codec (UTF-8, strict): the text is
    the byte sequence itself when it is well-formed UTF-8 (no overlong
    form, no surrogate, nothing above U+10FFFF), otherwise
    [UnicodeDecodeError]. *)
Fixpoint utf8_valid (s : string) : bool :=
  match s with
  | "" => true
  | String b0 r0 =>
      if is_ascii b0 then utf8_valid r0
      else
        match r0 with
        | "" => false
        | String b1 r1 =>
            if in_range 194 223 b0 then is_cont b1 && utf8_valid r1
            else
              match r1 with
              | "" => false
              | String b2 r2 =>
                  if in_range 224 239 b0 then
                    (if (code b0 =? 224)%N then in_range 160 191 b1
                     else if (code b0 =? 237)%N then in_range 128 159 b1
                     else is_cont b1)
                    && is_cont b2 && utf8_valid r2
                  else
                    match r2 with
                    | "" => false
                    | String b3 r3 =>
                        in_range 240 244 b0
                        && (if (code b0 =? 240)%N then in_range 144 191 b1
                            else if (code b0 =? 244)%N then in_range 128 143 b1
                            else is_cont b1)
                        && is_cont b2 && is_cont b3 && utf8_valid r3
                    end
              end
        end
  end.

Definition decode (b : string) : option string :=
  if utf8_valid b then Some b else None.

(** One-character line boundaries of [str.splitlines] below U+0080:
    LF, VT, FF, CR, FS, GS, RS. *)
Definition is_break (c : ascii) : bool :=
  in_range 10 13 c || in_range 28 30 c.

Definition snoc (s : string) (c : ascii) : string := s +:+ String c "".

(** [str.splitlines()]: the text is cut at every line boundary; CR LF
    counts as one boundary; the boundaries U+0085, U+2028 and U+2029 are
    the byte sequences C2 85, E2 80 A8 and E2 80 A9; a trailing boundary
    does not open a further, empty line. [line] is the part of the
    current line already read. *)
Fixpoint splitlines_from (line s : string) : list string :=
  match s with
  | "" => match line with "" => [] | _ => [line] end
  | String c r =>
      if is_break c then
        match r with
        | String c' r' =>
            if Ascii.eqb c CR && Ascii.eqb c' LF
            then line :: splitlines_from "" r'
            else line :: splitlines_from "" r
        | "" => [line]
        end
      else if (code c =? 194)%N then
        match r with
        | String c' r' =>
            if (code c' =? 133)%N then line :: splitlines_from "" r'
            else splitlines_from (snoc line c) r
        | "" => splitlines_from (snoc line c) r
        end
      else if (code c =? 226)%N then
        match r with
        | String c' (String c'' r'') =>
            if (code c' =? 128)%N && in_range 168 169 c''
            then line :: splitlines_from "" r''
            else splitlines_from (snoc line c) r
        | _ => splitlines_from (snoc line c) r
        end
      else splitlines_from (snoc line c) r
  end.

Definition splitlines (s : string) : list string := splitlines_from "" s.

(** [str.split(sep)] for a separator of one character: one more field
    than there are separators. *)
Fixpoint split_from (sep : ascii) (field s : string) : list string :=
  match s with
  | "" => [field]
  | String c r =>
      if Ascii.eqb c sep then field :: split_from sep "" r
      else split_from sep (snoc field c) r
  end.

Definition split (sep : ascii) (s : string) : list string :=
  split_from sep "" s.

(** Vocabulary of the subprocess protocols. *)

Definition is_hex (c : ascii) : bool :=
  in_range 48 57 c || in_range 97 102 c || in_range 65 70 c.

Fixpoint all_chars (p : ascii -> bool) (s : string) : bool :=
  match s with
  | "" => true
  | String c r => p c && all_chars p r
  end.

(** A character below U+0080 that is not a line boundary. *)
Definition plain (c : ascii) : bool :=
  is_ascii c && negb (is_break c).

(** A line boundary starts at the head of [s]. *)
Definition break_here (s : string) : bool :=
  match s with
  | "" => false
  | String c r =>
      is_break c
      || match r with
         | String c' r' =>
             ((code c =? 194)%N && (code c' =? 133)%N)
             || match r' with
                | String c'' _ =>
                    (code c =? 226)%N && (code c' =? 128)%N
                    && in_range 168 169 c''
                | "" => false
                end
         | "" => false
         end
  end.

Fixpoint has_linebreak (s : string) : bool :=
  match s with
  | "" => false
  | String _ r => break_here s || has_linebreak r
  end.

Fixpoint occurs (sep : ascii) (s : string) : bool :=
  match s with
  | "" => false
  | String c r => Ascii.eqb c sep || occurs sep r
  end.

End PyStr.

(** ** Python values, exceptions and computations *)

(** Scalar values of a parsed YAML document. *)
Inductive yval : Type :=
| YNull
| YBool (b : bool)
| YInt (n : Z)
| YStr (s : string).

Abbreviation dict := (gmap string yval).

(** Truth value of an object, as taken by [not] and [if]. *)
Definition truthy (v : yval) : bool :=
  match v with
  | YNull => false
  | YBool b => b
  | YInt n => negb (n =? 0)
  | YStr s => negb (String.eqb s "")
  end.

Inductive exn : Type :=
| KeyError (key : string)
| TypeError
| ValueError
| AssertionError
| NameError (name : string)
| UnicodeDecodeError
| CalledProcessError (returncode : Z) (cmd : list string)
| AttributeError
| OSError (what : string)
| Exception (cls msg : string).

Inductive result (A : Type) : Type :=
| Return (a : A)
| Raise (e : exn).
Arguments Return {A} a.
Arguments Raise {A} e.

(** What a call does to the outside world, in order. [Exec] is the start of
    a child process with its argument vector and working directory;
    [HttpGet] is a request of [urllib.request.urlopen]; [LogInfo] is a line
    handed to the logger. *)
Inductive event : Type :=
| Exec (argv : list string) (cwd : option string)
| HttpGet (url : string)
| LogInfo (msg : string).

(** Why [subprocess.Popen] could not start a child process. *)
Inductive spawn_error : Type :=
| FileNotFound
| NotADirectory
| PermissionDenied
| EmbeddedNul.

Definition spawn_exn (why : spawn_error) : exn :=
  match why with
  | FileNotFound => OSError "FileNotFoundError"
  | NotADirectory => OSError "NotADirectoryError"
  | PermissionDenied => OSError "PermissionError"
  | EmbeddedNul => ValueError
  end.

(** Completion of a child process: it ran to its end, leaving a return
    code, its standard output and a file system; or it could not be
    started. *)
Inductive completed (FS : Type) : Type :=
| Exited (returncode : Z) (stdout : string) (fs : FS)
| NotStarted (why : spawn_error).
Arguments Exited {FS} returncode stdout fs.
Arguments NotStarted {FS} why.

(** The operating system as the module sees it. *)
Record OS (FS : Type) : Type := {
  (** [os.path.isdir] *)
  os_path_isdir : string -> FS -> bool;
  (** [os.access(path, os.F_OK)] *)
  os_access_F_OK : string -> FS -> bool;
  (** [shutil.which] *)
  shutil_which : string -> FS -> option string;
  (** a child process run until it ends ([subprocess.call],
      [check_call], [check_output]) *)
  os_run : list string -> option string -> FS -> completed FS;
  (** Modelled from the spec: [_util.try_mkdir], of the module [util] that
      is imported but not part of these sources; it ensures that the
      directory exists ("ensure destination directory exists"). *)
  try_mkdir : string -> FS -> result FS;
  (** [urllib.request.urlopen(url)] read to its end *)
  os_urlopen : string -> FS -> result string;
  (** [open(path, 'wb')] followed by the copy of the body into the file *)
  os_write_file : string -> string -> FS -> result FS
}.
Arguments os_path_isdir {FS} _ _ _.
Arguments os_access_F_OK {FS} _ _ _.
Arguments shutil_which {FS} _ _ _.
Arguments os_run {FS} _ _ _ _.
Arguments try_mkdir {FS} _ _ _.
Arguments os_urlopen {FS} _ _ _.
Arguments os_write_file {FS} _ _ _ _.

(** A computation: from the file system before the call to its outcome, the
    file system after it and the events it caused. *)
Definition M (FS A : Type) : Type := FS -> result A * FS * list event.

Definition outcome {FS A} (r : result A * FS * list event) : result A := r.1.1.
Definition final_fs {FS A} (r : result A * FS * list event) : FS := r.1.2.
Definition trace {FS A} (r : result A * FS * list event) : list event := r.2.

Section Computations.
Context {FS : Type}.

Definition ret {A} (a : A) : M FS A := fun fs => (Return a, fs, []).

Definition raise {A} (e : exn) : M FS A := fun fs => (Raise e, fs, []).

Definition bind {A B} (m : M FS A) (k : A -> M FS B) : M FS B :=
  fun fs =>
    match m fs with
    | (Return a, fs1, t1) =>
        match k a fs1 with
        | (r, fs2, t2) => (r, fs2, t1 ++ t2)
        end
    | (Raise e, fs1, t1) => (Raise e, fs1, t1)
    end.

(** [try: body / except subprocess.CalledProcessError: handler] *)
Definition try_except_CalledProcessError {A}
    (body : M FS A) (handler : M FS A) : M FS A :=
  fun fs =>
    match body fs with
    | (Raise (CalledProcessError _ _), fs1, t1) =>
        match handler fs1 with
        | (r, fs2, t2) => (r, fs2, t1 ++ t2)
        end
    | r => r
    end.

Definition emit (e : event) : M FS unit := fun fs => (Return tt, fs, [e]).

Definition read {A} (f : FS -> A) : M FS A := fun fs => (Return (f fs), fs, []).

Definition update (f : FS -> result FS) : M FS unit :=
  fun fs =>
    match f fs with
    | Return fs' => (Return tt, fs', [])
    | Raise e => (Raise e, fs, [])
    end.

Definition py_assert (b : bool) : M FS unit :=
  if b then ret tt else raise AssertionError.

Definition of_result {A} (r : result A) : M FS A :=
  match r with
  | Return a => ret a
  | Raise e => raise e
  end.
End Computations.

Notation "'let*' x ':=' m 'in' k" := (bind m (fun x => k))
  (at level 10, x name, m at level 100, k at level 200).

(** ** Dictionaries and strings of the descriptor *)

(** [key in d] *)
Definition contains (d : dict) (key : string) : bool :=
  match d !! key with Some _ => true | None => false end.

(** [d[key]] *)
Definition getitem (d : dict) (key : string) : result yval :=
  match d !! key with Some v => Return v | None => Raise (KeyError key) end.

(** [d.get(key, default)] *)
Definition get_default (d : dict) (key : string) (default : yval) : yval :=
  match d !! key with Some v => v | None => default end.

(** [a != b] between values that are a [str] or [None]. *)
Definition ne (a b : option string) : bool :=
  match a, b with
  | Some x, Some y => negb (String.eqb x y)
  | None, None => false
  | _, _ => true
  end.

(** ['literal' + v] and [s + v]: defined between two [str] only. *)
Definition str_add (s : string) (v : yval) : result string :=
  match v with
  | YStr t => Return (s +:+ t)
  | _ => Raise TypeError
  end.

(** An element of an argument vector: [str] is accepted, anything else makes
    [subprocess] raise [TypeError] before a process is started. *)
Inductive arg : Type :=
| Lit (s : string)
| Val (v : yval).

Definition arg_str (a : arg) : result string :=
  match a with
  | Lit s => Return s
  | Val (YStr s) => Return s
  | Val _ => Raise TypeError
  end.

Fixpoint argv_strs (args : list arg) : result (list string) :=
  match args with
  | [] => Return []
  | a :: rest =>
      match arg_str a with
      | Return s =>
          match argv_strs rest with
          | Return l => Return (s :: l)
          | Raise e => Raise e
          end
      | Raise e => Raise e
      end
  end.

(** ** The [subprocess] module *)

Section Subprocess.
Context {FS : Type} (os : OS FS).

(** Start the process and wait for it; the return code and the output. *)
Definition run_process (args : list arg) (cwd : option string)
  : M FS (list string * Z * string) :=
  fun fs =>
    match argv_strs args with
    | Raise e => (Raise e, fs, [])
    | Return argv =>
        match os_run os argv cwd fs with
        | Exited rc out fs' => (Return (argv, rc, out), fs', [Exec argv cwd])
        | NotStarted why => (Raise (spawn_exn why), fs, [Exec argv cwd])
        end
    end.

(** [subprocess.call]: the return code. *)
Definition subprocess_call (args : list arg) (cwd : option string) : M FS Z :=
  let* r := run_process args cwd in
  ret r.1.2.

(** [subprocess.check_call]: [CalledProcessError] unless the return code
    is zero. *)
Definition subprocess_check_call (args : list arg) (cwd : option string)
  : M FS unit :=
  let* r := run_process args cwd in
  if r.1.2 =? 0 then ret tt else raise (CalledProcessError r.1.2 r.1.1).

(** [subprocess.check_output]: the bytes of the standard output,
    [CalledProcessError] unless the return code is zero. *)
Definition subprocess_check_output (args : list arg) (cwd : option string)
  : M FS string :=
  let* r := run_process args cwd in
  if r.1.2 =? 0 then ret r.2 else raise (CalledProcessError r.1.2 r.1.1).
End Subprocess.

(** ** The module [vcs_utils] *)

Inductive RepoStatus : Type := GOOD | MISSING | OUTDATED.

(** The attributes of a source that the module reads. [_this_yml] is the
    YAML mapping of the source; the other attributes are properties computed
    by the caller's configuration layer. *)
Record Source : Type := {
  name : string;
  _this_yml : dict;
  source_dir : string;
  source_archive_file : string;
  is_rolling_version : bool
}.

(** [cfg._commit_yml]: under the key [commits], a mapping from source names
    to the mapping that may hold [fixed_commit]. *)
Record Config : Type := {
  _commit_yml : gmap string (gmap string dict)
}.

(** Names bound at the top level of the module: the imports, the class
    [RepoStatus] and the two functions. *)
Definition module_globals : list string :=
  ["Enum"; "os"; "shutil"; "subprocess"; "urllib"; "_util";
   "RepoStatus"; "check_repo"; "fetch_repo"].

Section VcsUtils.
Context {FS : Type} (os : OS FS).

(** Modelled from the spec: [_util.log_info], of the module [util] that
    is imported but not part of these sources; logging is presentation
    and leaves the file system alone. *)
Definition log_info (msg : string) : M FS unit := emit (LogInfo msg).

(** [raise cls(msg)] for a class named by a global of the module: the name
    is looked up before the instance is built, and no builtin is called
    [GenericException]. *)
Definition raise_instance {A} (cls msg : string) : M FS A :=
  if bool_decide (cls ∈ module_globals)
  then raise (Exception cls msg)
  else raise (NameError cls).

Definition py_decode (b : string) : M FS string :=
  match PyStr.decode b with
  | Some s => ret s
  | None => raise UnicodeDecodeError
  end.

(** [(commit, outref) = line.split(sep)] *)
Definition unpack_commit (sep : ascii) (line : string) : M FS string :=
  match PyStr.split sep line with
  | [commit; outref] => ret commit
  | _ => raise ValueError
  end.

(** The lines of a query's output, [None] when the query exits non-zero. *)
Definition query_lines (args : list arg) (cwd : option string)
  : M FS (option (list string)) :=
  try_except_CalledProcessError
    (let* b := subprocess_check_output os args cwd in
     let* s := py_decode b in
     ret (Some (PyStr.splitlines s)))
    (ret None).

Definition get_local_commit (src : Source) (ref : string)
  : M FS (option string) :=
  let* out := query_lines
                [Lit "git"; Lit "show-ref"; Lit "--verify"; Lit ref]
                (Some (source_dir src)) in
  match out with
  | None => ret None
  | Some out =>
      let* _ := py_assert (length out =? 1)%nat in
      let* commit := unpack_commit PyStr.SPACE (nth 0 out "") in
      ret (Some commit)
  end.

Definition get_remote_commit (src : Source) (ref : string)
  : M FS (option string) :=
  let* url := of_result (getitem (_this_yml src) "git") in
  let* out := query_lines
                [Lit "git"; Lit "ls-remote"; Lit "--exit-code"; Val url; Lit ref]
                None in
  match out with
  | None => ret None
  | Some out =>
      let* _ := py_assert (length out =? 1)%nat in
      let* commit := unpack_commit PyStr.TAB (nth 0 out "") in
      ret (Some commit)
  end.

(** The upstream ref and the tracking ref of a git source. *)
Definition git_refs (yml : dict) : result (string * string) :=
  if contains yml "tag" then
    match getitem yml "tag" with
    | Raise e => Raise e
    | Return t =>
        match str_add "refs/tags/" t, str_add "refs/tags/" t with
        | Return ref, Return tracking_ref => Return (ref, tracking_ref)
        | Raise e, _ | _, Raise e => Raise e
        end
    end
  else
    match getitem yml "branch" with
    | Raise e => Raise e
    | Return b =>
        match str_add "refs/heads/" b, str_add "refs/remotes/origin/" b with
        | Return ref, Return tracking_ref => Return (ref, tracking_ref)
        | Raise e, _ | _, Raise e => Raise e
        end
    end.

Definition do_check_remote (yml : dict) (check_remotes : Z) : bool :=
  let do_check_remote := false in
  let do_check_remote := if check_remotes >=? 2 then true else do_check_remote in
  let do_check_remote :=
    if (check_remotes >=? 1) && negb (contains yml "tag") then true
    else do_check_remote in
  do_check_remote.

Definition check_repo (src : Source) (check_remotes : Z) : M FS RepoStatus :=
  let yml := _this_yml src in
  if contains yml "git" then
    let* isdir := read (os_path_isdir os (source_dir src)) in
    if negb isdir then ret MISSING else
    let* refs := of_result (git_refs yml) in
    let* local_commit := get_local_commit src refs.2 in
    match local_commit with
    | None => ret MISSING
    | Some local =>
        if do_check_remote yml check_remotes then
          let* _ := log_info ("Checking for remote updates of " +:+ name src) in
          let* remote_commit := get_remote_commit src refs.1 in
          if ne (Some local) remote_commit
          then ret OUTDATED
          else ret GOOD
        else ret GOOD
    end
  else if contains yml "hg" then
    let* isdir := read (os_path_isdir os (source_dir src)) in
    if negb isdir then ret MISSING else
    let* rev := of_result (if contains yml "tag" then getitem yml "tag"
                           else getitem yml "branch") in
    let* rc := subprocess_call os
                 [Lit "hg"; Lit "manifest"; Lit "--pager"; Lit "never";
                  Lit "-r"; Val rev]
                 (Some (source_dir src)) in
    if negb (rc =? 0) then ret MISSING else ret GOOD
  else if contains yml "svn" then
    let* isdir := read (os_path_isdir os (source_dir src)) in
    if negb isdir then ret MISSING else ret GOOD
  else
    let* _ := py_assert (contains yml "url") in
    let* present := read (os_access_F_OK os (source_archive_file src)) in
    if negb present then ret MISSING else ret GOOD.

(** [fixed_commit is not None] *)
Definition is_not_None (v : yval) : bool :=
  match v with YNull => false | _ => true end.

(** The pin of the source in the commit record:
    [cfg._commit_yml.get('commits', dict()).get(src.name, dict())
        .get('fixed_commit', None)]. *)
Definition fixed_commit_of (cfg : Config) (src : Source) : yval :=
  let commit_yml := default ∅ (default ∅ (_commit_yml cfg !! "commits") !! name src) in
  get_default commit_yml "fixed_commit" YNull.

(** The argument vector of [git fetch] (lines 100 to 123). *)
Definition git_fetch_args (git : string) (source : dict) (rolling : bool)
    (fixed_commit : yval) (init : bool) : result (list arg) :=
  let shallow := negb (truthy (get_default source "disable_shallow_fetch" (YBool false))) in
  let shallow := if rolling then false else shallow in
  let args := [Lit git; Lit "fetch"] in
  if contains source "tag" then
    let args := if shallow then args ++ [Lit "--depth=1"] else args in
    match getitem source "git", getitem source "tag" with
    | Return url, Return tag => Return (args ++ [Val url; Lit "tag"; Val tag])
    | Raise e, _ | _, Raise e => Raise e
    end
  else
    let shallow :=
      if contains source "commit" || is_not_None fixed_commit then false
      else shallow in
    let args := if init && shallow then args ++ [Lit "--depth=1"] else args in
    match getitem source "git", getitem source "branch" with
    | Return url, Return branch =>
        match str_add "refs/heads/" branch with
        | Return heads =>
            match str_add (heads +:+ ":" +:+ "refs/remotes/origin/") branch with
            | Return refspec => Return (args ++ [Val url; Lit refspec])
            | Raise e => Raise e
            end
        | Raise e => Raise e
        end
    | Raise e, _ | _, Raise e => Raise e
    end.

(** The preparation of a fresh repository (lines 94 to 98). *)
Definition prepare (git : string) (src : Source) : M FS unit :=
  let* _ := update (try_mkdir os (source_dir src)) in
  let* _ := subprocess_check_call os [Lit git; Lit "init"]
              (Some (source_dir src)) in
  let* url := of_result (getitem (_this_yml src) "git") in
  subprocess_check_call os
    [Lit git; Lit "remote"; Lit "add"; Lit "origin"; Val url]
    (Some (source_dir src)).

Definition fetch_repo (cfg : Config) (src : Source) : M FS unit :=
  let source := _this_yml src in
  if contains source "git" then
    let* git := read (shutil_which os "git") in
    match git with
    | None => raise_instance "GenericException"
                "git not found; please install it and retry"
    | Some git =>
        let fixed_commit := fixed_commit_of cfg src in
        let* isdir := read (os_path_isdir os (source_dir src)) in
        let init := negb isdir in
        let* _ := if init then prepare git src else ret tt in
        let* args := of_result
                       (git_fetch_args git source (is_rolling_version src)
                          fixed_commit init) in
        subprocess_check_call os args (Some (source_dir src))
    end
  else if contains source "hg" then
    let* hg := read (shutil_which os "hg") in
    match hg with
    | None => raise_instance "GenericException"
                "mercurial (hg) not found; please install it and retry"
    | Some hg =>
        let* _ := update (try_mkdir os (source_dir src)) in
        let* url := of_result (getitem source "hg") in
        subprocess_check_call os
          [Lit hg; Lit "clone"; Val url; Lit (source_dir src)] None
    end
  else if contains source "svn" then
    let* svn := read (shutil_which os "svn") in
    match svn with
    | None => raise_instance "GenericException"
                "subversion (svn) not found; please install it and retry"
    | Some svn =>
        let* _ := update (try_mkdir os (source_dir src)) in
        let* url := of_result (getitem source "svn") in
        subprocess_check_call os
          [Lit svn; Lit "co"; Val url; Lit (source_dir src)] None
    end
  else
    let* _ := py_assert (contains source "url") in
    let* _ := update (try_mkdir os (source_dir src)) in
    let* url := of_result (getitem source "url") in
    match url with
    | YStr url =>
        let* _ := emit (HttpGet url) in
        let* body := (fun fs => (os_urlopen os url fs, fs, [])) in
        update (os_write_file os (source_archive_file src) body)
    | _ => raise AttributeError
    end.
End VcsUtils.

(** ** Shapes of descriptors and of command lines *)

Definition is_str (o : option yval) : bool :=
  match o with Some (YStr _) => true | _ => false end.

(** The ref of a git or mercurial source is a string: the tag when there is
    one, the branch otherwise. *)
Definition ref_ok (yml : dict) : bool :=
  if contains yml "tag" then is_str (yml !! "tag") else is_str (yml !! "branch").

(** A descriptor as the manifest layer hands it over: the origin is named
    by one of the keys [git], [hg], [svn], [url], looked up in that order,
    its address is a string, and so is its ref. *)
Definition well_formed (yml : dict) : bool :=
  if contains yml "git" then is_str (yml !! "git") && ref_ok yml
  else if contains yml "hg" then is_str (yml !! "hg") && ref_ok yml
  else if contains yml "svn" then is_str (yml !! "svn")
  else is_str (yml !! "url").

(** The queries of the status check: [git show-ref], [git ls-remote] and
    [hg manifest]. *)
Definition is_query (argv : list string) : bool :=
  match argv with
  | tool :: verb :: _ =>
      (String.eqb tool "git"
       && (String.eqb verb "show-ref" || String.eqb verb "ls-remote"))
      || (String.eqb tool "hg" && String.eqb verb "manifest")
  | _ => false
  end.

(** The contract of the external tools that the status check relies on:
    a query leaves the file system as it found it. *)
Definition queries_read_only {FS} (os : OS FS) : Prop :=
  forall argv cwd fs rc out fs',
    is_query argv = true ->
    os_run os argv cwd fs = Exited rc out fs' -> fs' = fs.

Definition quiet (ev : event) : bool :=
  match ev with
  | Exec argv _ => is_query argv
  | HttpGet _ => false
  | LogInfo _ => true
  end.

(** The events that reach a remote host: [git ls-remote], the transfers
    [git fetch], [hg clone] and [svn co], and HTTP requests. *)
Definition is_network (ev : event) : bool :=
  match ev with
  | Exec (_ :: verb :: _) _ =>
      String.eqb verb "ls-remote" || String.eqb verb "fetch"
      || String.eqb verb "clone" || String.eqb verb "co"
  | Exec _ _ => false
  | HttpGet _ => true
  | LogInfo _ => false
  end.

(** [git fetch] started with the depth-limiting flag. *)
Definition is_shallow_fetch (ev : event) : bool :=
  match ev with
  | Exec (_ :: verb :: flag :: _) _ =>
      String.eqb verb "fetch" && String.eqb flag "--depth=1"
  | _ => false
  end.

Definition is_fetch (ev : event) : bool :=
  match ev with
  | Exec (_ :: verb :: _) _ => String.eqb verb "fetch"
  | _ => false
  end.

(** Whether lines 100 to 121 append the flag: always decided by the two
    switches against shallow fetches; for a branch also by the pins and by
    whether the repository was just initialised. *)
Definition shallow_allowed (yml : dict) (rolling : bool) : bool :=
  negb (truthy (get_default yml "disable_shallow_fetch" (YBool false)))
  && negb rolling.

Definition depth_requested (yml : dict) (rolling : bool) (fixed_commit : yval)
    (init : bool) : bool :=
  if contains yml "tag" then shallow_allowed yml rolling
  else init && shallow_allowed yml rolling
       && negb (contains yml "commit") && negb (is_not_None fixed_commit).

(** The arguments of [git fetch] that name what is fetched. *)
Definition ref_args (yml : dict) : list string :=
  match yml !! "tag", yml !! "branch" with
  | Some (YStr t), _ => ["tag"; t]
  | None, Some (YStr b) =>
      ["refs/heads/" +:+ b +:+ ":" +:+ "refs/remotes/origin/" +:+ b]
  | _, _ => []
  end.

Definition fetch_argv (git url : string) (depth : bool) (refs : list string)
  : list string :=
  [git; "fetch"] ++ (if depth then ["--depth=1"] else []) ++ url :: refs.

(** ** A small concrete system

    Directories and files by name, the refs of the local repositories, the
    refs the remotes advertise, the revisions known to the mercurial
    working copies, and the tools on PATH. The tools answer in the formats
    of their protocols. *)

Module Sample.

Record disk : Type := {
  dirs : list string;
  files : list (string * string);
  local_refs : list (string * string * string);
  remote_refs : list (string * string * string);
  hg_revs : list (string * string);
  path : list (string * string)
}.

Fixpoint find_ref (where_ ref : string) (refs : list (string * string * string))
  : option string :=
  match refs with
  | [] => None
  | (w, r, commit) :: rest =>
      if String.eqb w where_ && String.eqb r ref then Some commit
      else find_ref where_ ref rest
  end.

Definition has_dir (p : string) (d : disk) : bool :=
  existsb (String.eqb p) (dirs d).

Definition has_file (p : string) (d : disk) : bool :=
  existsb (fun f => String.eqb p f.1) (files d).

Definition add_dir (p : string) (d : disk) : disk :=
  {| dirs := if has_dir p d then dirs d else p :: dirs d;
     files := files d; local_refs := local_refs d;
     remote_refs := remote_refs d; hg_revs := hg_revs d; path := path d |}.

Definition add_file (p body : string) (d : disk) : disk :=
  {| dirs := dirs d;
     files := (p, body) :: filter (fun f => negb (String.eqb p f.1)) (files d);
     local_refs := local_refs d;
     remote_refs := remote_refs d; hg_revs := hg_revs d; path := path d |}.

Definition which (tool : string) (d : disk) : option string :=
  snd <$> find (fun t => String.eqb tool t.1) (path d).

(** The return code and the output of a tool. The queries answer from
    the tables; every other command succeeds silently. *)
Definition answer (argv : list string) (cwd : option string) (d : disk)
  : Z * string :=
  match argv, cwd with
  | [_; "show-ref"; "--verify"; ref], Some dir =>
      match find_ref dir ref (local_refs d) with
      | Some commit => (0, commit +:+ " " +:+ ref +:+ PyStr.nl)
      | None => (128, "")
      end
  | [_; "ls-remote"; "--exit-code"; url; ref], _ =>
      match find_ref url ref (remote_refs d) with
      | Some commit => (0, commit +:+ PyStr.tab +:+ ref +:+ PyStr.nl)
      | None => (2, "")
      end
  | [_; "manifest"; "--pager"; "never"; "-r"; rev], Some dir =>
      if existsb (fun r => String.eqb dir r.1 && String.eqb rev r.2) (hg_revs d)
      then (0, "") else (255, "")
  | _, _ => (0, "")
  end.

(** The tools of this system keep their state in the tables, which no
    command changes; directories and files change through [try_mkdir]
    and the download only. The runner does not look at [path], which is
    what [shutil.which] consults: a command started under its bare name
    is answered as on a machine where the tool is installed, so the runs
    of the status check are stated on disks whose [path] holds the
    tools. *)
Definition run (argv : list string) (cwd : option string) (d : disk)
  : completed disk :=
  Exited (answer argv cwd d).1 (answer argv cwd d).2 d.

Definition system : OS disk := {|
  os_path_isdir := has_dir;
  os_access_F_OK := fun p d => has_dir p d || has_file p d;
  shutil_which := which;
  os_run := run;
  try_mkdir := fun p d => Return (add_dir p d);
  os_urlopen := fun url d => Return "archive";
  os_write_file := fun p body d => Return (add_file p body d)
|}.

Definition tools : list (string * string) :=
  [("git", "/usr/bin/git"); ("hg", "/usr/bin/hg"); ("svn", "/usr/bin/svn")].

Definition commit_a : string := "1f0c3a9d5b7e2468ace013579bdf02468ace0135".
Definition commit_b : string := "9e8d7c6b5a4f3e2d1c0b9a8f7e6d5c4b3a2f1e0d".

Definition repo_url : string := "https://example/repo.git".

(** Nothing fetched yet. *)
Definition empty_disk : disk := {|
  dirs := ["/src"]; files := []; local_refs := [];
  remote_refs := [(repo_url, "refs/heads/main", commit_b);
                  (repo_url, "refs/tags/v1.0", commit_a)];
  hg_revs := []; path := tools
|}.

(** The branch and the tag are fetched; the remote branch has moved on
    and the remote tag is as it was. *)
Definition fetched_disk : disk := {|
  dirs := ["/src"; "/src/repo"]; files := [];
  local_refs := [("/src/repo", "refs/remotes/origin/main", commit_a);
                 ("/src/repo", "refs/tags/v1.0", commit_a)];
  remote_refs := [(repo_url, "refs/heads/main", commit_b);
                  (repo_url, "refs/tags/v1.0", commit_a)];
  hg_revs := [("/src/repo", "default")]; path := tools
|}.

(** As [fetched_disk], but the remote does not answer for either ref. *)
Definition offline_disk : disk := {|
  dirs := ["/src"; "/src/repo"]; files := [];
  local_refs := [("/src/repo", "refs/remotes/origin/main", commit_a);
                 ("/src/repo", "refs/tags/v1.0", commit_a)];
  remote_refs := [];
  hg_revs := []; path := tools
|}.

(** The archive is downloaded next to where the source directory would
    be, which does not exist. *)
Definition archive_disk : disk := {|
  dirs := ["/src"]; files := [("/src/zlib.tar.gz", "archive")];
  local_refs := []; remote_refs := []; hg_revs := []; path := tools
|}.

(** No version-control tool is installed. *)
Definition bare_disk : disk := {|
  dirs := ["/src"]; files := []; local_refs := []; remote_refs := [];
  hg_revs := []; path := []
|}.

Definition src_of (yml : dict) (rolling : bool) : Source := {|
  name := "repo"; _this_yml := yml; source_dir := "/src/repo";
  source_archive_file := "/src/repo.tar.gz"; is_rolling_version := rolling
|}.

Definition branch_yml : dict :=
  {[ "git" := YStr repo_url; "branch" := YStr "main" ]}.
Definition tag_yml : dict :=
  {[ "git" := YStr repo_url; "tag" := YStr "v1.0" ]}.
Definition hg_yml : dict :=
  {[ "hg" := YStr "https://example/hg"; "branch" := YStr "default" ]}.
Definition svn_yml : dict := {[ "svn" := YStr "https://example/svn" ]}.
Definition url_yml : dict := {[ "url" := YStr "https://example/zlib.tar.gz" ]}.

Definition branch_src : Source := src_of branch_yml false.
Definition tag_src : Source := src_of tag_yml false.
Definition hg_src : Source := src_of hg_yml false.
Definition svn_src : Source := src_of svn_yml false.

Definition archive_src : Source := {|
  name := "zlib"; _this_yml := url_yml; source_dir := "/src/zlib";
  source_archive_file := "/src/zlib.tar.gz"; is_rolling_version := false
|}.

Definition no_pins : Config := {| _commit_yml := ∅ |}.

Definition pinned : Config :=
  {| _commit_yml :=
       {[ "commits" := {[ "repo" := {[ "fixed_commit" := YStr commit_a ]} ]} ]} |}.

End Sample.

(** ** Statements that the code turns out not to satisfy

    They are kept as definitions so that they can be evaluated on the
    sample system. *)

(** A missing source directory alone makes the answer MISSING, without a
    network event, whatever the origin. *)
Definition absent_dir_means_missing {FS} (os : OS FS) (src : Source)
    (check_remotes : Z) (fs : FS) : Prop :=
  os_path_isdir os (source_dir src) fs = false ->
  outcome (check_repo os src check_remotes fs) = Return MISSING
  /\ filter is_network (trace (check_repo os src check_remotes fs)) = [].

(** A remote query that fails, after the local commit was found and with a
    remote check due, gives GOOD. *)
Definition failed_query_means_good {FS} (os : OS FS) (src : Source)
    (check_remotes : Z) (fs : FS) : Prop :=
  forall refs url local fs1 t1 rc out fs2,
    contains (_this_yml src) "git" = true ->
    os_path_isdir os (source_dir src) fs = true ->
    do_check_remote (_this_yml src) check_remotes = true ->
    git_refs (_this_yml src) = Return refs ->
    (_this_yml src) !! "git" = Some (YStr url) ->
    get_local_commit os src refs.2 fs = (Return (Some local), fs1, t1) ->
    os_run os ["git"; "ls-remote"; "--exit-code"; url; refs.1] None fs1
      = Exited rc out fs2 ->
    rc <> 0 ->
    outcome (check_repo os src check_remotes fs) = Return GOOD.

(** The depth-limiting flag is passed only without any pin, without the
    switches against shallow fetches and, for a branch, on the first fetch. *)
Definition depth_only_when_unpinned {FS} (os : OS FS) (cfg : Config)
    (src : Source) (fs : FS) : Prop :=
  contains (_this_yml src) "git" = true ->
  existsb is_shallow_fetch (trace (fetch_repo os cfg src fs)) = true ->
  truthy (get_default (_this_yml src) "disable_shallow_fetch" (YBool false)) = false
  /\ is_rolling_version src = false
  /\ fixed_commit_of cfg src = YNull
  /\ contains (_this_yml src) "commit" = false
  /\ (contains (_this_yml src) "tag" = false ->
      os_path_isdir os (source_dir src) fs = false).

(** What a query returns, read off the completion of its process. *)
Definition lines_of {FS} (c : completed FS) (fs : FS)
  : result (option (list string)) * FS :=
  match c with
  | Exited rc out fs' =>
      if rc =? 0 then
        (match PyStr.decode out with
         | Some s => Return (Some (PyStr.splitlines s))
         | None => Raise UnicodeDecodeError
         end, fs')
      else (Return None, fs')
  | NotStarted why => (Raise (spawn_exn why), fs)
  end.

(** The commit that [get_local_commit] and [get_remote_commit] read from
    the lines of a query: the assertion on the number of lines, then the
    split of the line at the separator. *)
Definition commit_of (sep : ascii) (r : result (option (list string)))
  : result (option string) :=
  match r with
  | Raise e => Raise e
  | Return None => Return None
  | Return (Some out) =>
      if (length out =? 1)%nat then
        match PyStr.split sep (nth 0 out "") with
        | [commit; outref] => Return (Some commit)
        | _ => Raise ValueError
        end
      else Raise AssertionError
  end.

Definition show_ref (ref : string) : list string :=
  ["git"; "show-ref"; "--verify"; ref].

Definition ls_remote (url ref : string) : list string :=
  ["git"; "ls-remote"; "--exit-code"; url; ref].

(** A computation that leaves the file system as it found it and causes
    nothing but queries and log lines. *)
Definition read_only {FS A} (m : M FS A) : Prop :=
  forall fs, final_fs (m fs) = fs /\ forallb quiet (trace (m fs)) = true.


(** What [subprocess.check_call] gives for an argument vector of strings:
    nothing when the process exits with zero, [CalledProcessError] with
    the return code and the command otherwise, and the exception of the
    start when the process cannot be started. *)
Definition called {FS} (os : OS FS) (argv : list string) (cwd : option string)
    (fs : FS) : result unit * FS * list event :=
  match os_run os argv cwd fs with
  | Exited rc out fs' =>
      (if rc =? 0 then Return tt else Raise (CalledProcessError rc argv),
       fs', [Exec argv cwd])
  | NotStarted why => (Raise (spawn_exn why), fs, [Exec argv cwd])
  end.

(** The contract of the file system that the archive scenario relies on:
    a file that was written exists. *)
Definition written_files_exist {FS} (os : OS FS) : Prop :=
  forall path body fs fs',
    os_write_file os path body fs = Return fs' ->
    os_access_F_OK os path fs' = true.

Definition is_exec (ev : event) : bool :=
  match ev with Exec _ _ => true | _ => false end.

(** The contracts that the subversion scenario relies on: a directory that
    was created exists, and a child process does not remove a directory. *)
Definition mkdir_makes_dir {FS} (os : OS FS) : Prop :=
  forall path fs fs',
    try_mkdir os path fs = Return fs' -> os_path_isdir os path fs' = true.

Definition processes_keep_dirs {FS} (os : OS FS) : Prop :=
  forall argv cwd fs rc out fs' path,
    os_run os argv cwd fs = Exited rc out fs' ->
    os_path_isdir os path fs = true -> os_path_isdir os path fs' = true.

(** Further descriptors and a system without executables, for the sample
    runs of the faulty cases. *)
Module Faulty.

(** A git descriptor without tag and branch. *)
Definition ref_less_src : Source :=
  Sample.src_of {[ "git" := YStr Sample.repo_url ]} false.

(** A descriptor without origin. *)
Definition no_origin_src : Source := Sample.src_of ∅ false.

(** The sample system with no executable that can be started. *)
Definition no_exec_system : OS Sample.disk := {|
  os_path_isdir := Sample.has_dir;
  os_access_F_OK := fun p d => Sample.has_dir p d || Sample.has_file p d;
  shutil_which := Sample.which;
  os_run := fun argv cwd d => NotStarted FileNotFound;
  try_mkdir := fun p d => Return (Sample.add_dir p d);
  os_urlopen := fun url d => Return "archive";
  os_write_file := fun p body d => Return (Sample.add_file p body d)
|}.

End Faulty.

(** * Properties *)

(** ** Laws of computations *)

Section Laws.
Context {FS : Type}.
Implicit Types fs : FS.

Lemma bind_ret {A B} (a : A) (k : A -> M FS B) fs : bind (ret a) k fs = k a fs.
Proof. unfold bind, ret. by destruct (k a fs) as [[? ?] ?]. Qed.

Lemma bind_read {A B} (f : FS -> A) (k : A -> M FS B) fs :
  bind (read f) k fs = k (f fs) fs.
Proof. unfold bind, read. by destruct (k (f fs) fs) as [[? ?] ?]. Qed.

Lemma bind_of_result_Return {A B} (r : result A) a (k : A -> M FS B) fs :
  r = Return a -> bind (of_result r) k fs = k a fs.
Proof. intros ->. apply bind_ret. Qed.

Lemma bind_emit {B} ev (k : unit -> M FS B) fs :
  bind (emit ev) k fs = (let r := k tt fs in (r.1.1, r.1.2, ev :: r.2)).
Proof. unfold bind, emit. by destruct (k tt fs) as [[? ?] ?]. Qed.

Lemma bind_ret_r {A} (m : M FS A) fs : bind m ret fs = m fs.
Proof.
  unfold bind, ret. destruct (m fs) as [[[a|e] fs1] t1]; [|done].
  by rewrite app_nil_r.
Qed.

Lemma bind_assoc {A B C} (m : M FS A) (k : A -> M FS B) (h : B -> M FS C) fs :
  bind (bind m k) h fs = bind m (fun a => bind (k a) h) fs.
Proof.
  unfold bind. destruct (m fs) as [[[a|e] fs1] t1]; [|done].
  destruct (k a fs1) as [[[b|e] fs2] t2]; [|done].
  destruct (h b fs2) as [[r fs3] t3]. by rewrite app_assoc.
Qed.
End Laws.


(** ** Lines and fields *)

Section Text.
Import PyStr.

Lemma hex_plain c : is_hex c = true -> plain c = true.
Proof. destruct c as [[] [] [] [] [] [] [] []]; vm_compute; congruence. Qed.

Lemma hex_not_sep c :
  is_hex c = true -> Ascii.eqb c SPACE = false /\ Ascii.eqb c TAB = false.
Proof. destruct c as [[] [] [] [] [] [] [] []]; vm_compute; intuition congruence. Qed.

Lemma plain_no_break c t : plain c = true -> break_here (String c t) = false.
Proof.
  destruct c as [[] [] [] [] [] [] [] []]; vm_compute; try congruence;
    intros _; destruct t as [|? [|? ?]]; reflexivity.
Qed.

Lemma append_cons a s t : String a s +:+ t = String a (s +:+ t).
Proof. reflexivity. Qed.

Lemma append_nil_l t : "" +:+ t = t.
Proof. reflexivity. Qed.

Lemma snoc_append acc c s : snoc acc c +:+ s = acc +:+ String c s.
Proof.
  unfold snoc. induction acc as [|a acc IH]; [done|].
  rewrite !append_cons. by f_equal.
Qed.

Lemma append_nil_r s : s +:+ "" = s.
Proof. induction s as [|a s IH]; [done|]. rewrite append_cons. by f_equal. Qed.

Lemma append_assoc a b c : (a +:+ b) +:+ c = a +:+ (b +:+ c).
Proof. induction a as [|x a IH]; [done|]. rewrite !append_cons. by f_equal. Qed.

(** Without a boundary at its head, the text gives its first character
    to the current line. *)
Lemma splitlines_from_step c t acc :
  break_here (String c t) = false ->
  splitlines_from acc (String c t) = splitlines_from (snoc acc c) t.
Proof.
  cbn [break_here splitlines_from].
  destruct (is_break c); [done|]. cbn [orb].
  destruct (code c =? 194)%N, (code c =? 226)%N; cbn [andb];
    destruct t as [|c' [|c'' t'']]; try done; cbn [orb];
    destruct (code c' =? 133)%N; try done; cbn [orb];
    destruct (code c' =? 128)%N; try done; cbn [andb];
    by intros ->.
Qed.

Lemma break_here_nl c t :
  break_here (String c t) = false -> break_here (String c (t +:+ nl)) = false.
Proof.
  cbn [break_here].
  destruct (is_break c); [done|]. cbn [orb].
  destruct t as [|c' [|c'' t'']]; rewrite ?append_cons, ?append_nil_l;
    unfold nl; try done.
  - intros _. by rewrite andb_false_r.
  - destruct ((code c =? 194)%N && (code c' =? 133)%N); [done|]. intros _.
    cbn [orb]. replace (in_range 168 169 LF) with false by reflexivity.
    by rewrite andb_false_r.
Qed.

Lemma splitlines_from_nl s :
  forall acc, has_linebreak s = false ->
    splitlines_from acc (s +:+ nl) = [acc +:+ s].
Proof.
  induction s as [|c r IH]; intros acc.
  - intros _. by rewrite append_nil_r.
  - cbn [has_linebreak]. intros [Hc Hr]%orb_false_iff.
    rewrite append_cons.
    rewrite splitlines_from_step by by apply break_here_nl.
    by rewrite IH, snoc_append.
Qed.

Lemma splitlines_from_line s :
  forall acc, has_linebreak s = false -> acc +:+ s <> "" ->
    splitlines_from acc s = [acc +:+ s].
Proof.
  induction s as [|c r IH]; intros acc.
  - intros _. rewrite append_nil_r. by destruct acc.
  - cbn [has_linebreak]. intros [Hc Hr]%orb_false_iff Hne.
    rewrite splitlines_from_step by done.
    rewrite <- snoc_append in *. by apply IH.
Qed.

(** A text without a line boundary, followed by a newline or by nothing,
    is one line. *)
Lemma splitlines_one_line s eol :
  has_linebreak s = false -> s <> "" -> eol = "" \/ eol = nl ->
  splitlines (s +:+ eol) = [s].
Proof.
  intros Hs Hne [-> | ->]; unfold splitlines.
  - rewrite append_nil_r. by apply splitlines_from_line.
  - by apply splitlines_from_nl.
Qed.

Lemma has_linebreak_plain a s :
  all_chars plain a = true -> has_linebreak (a +:+ s) = has_linebreak s.
Proof.
  induction a as [|c a IH]; [done|].
  rewrite append_cons. cbn [all_chars has_linebreak].
  intros [Hc Ha]%andb_true_iff.
  by rewrite plain_no_break, IH.
Qed.

Lemma split_from_none sep s :
  forall acc, occurs sep s = false -> split_from sep acc s = [acc +:+ s].
Proof.
  induction s as [|c r IH]; intros acc; cbn [occurs split_from].
  - by rewrite append_nil_r.
  - intros [Hc Hr]%orb_false_iff. rewrite Hc, IH by done.
    by rewrite snoc_append.
Qed.

Lemma split_from_sep sep a b :
  forall acc, occurs sep a = false ->
    split_from sep acc (a +:+ String sep b) = (acc +:+ a) :: split_from sep "" b.
Proof.
  induction a as [|c r IH]; intros acc;
    rewrite ?append_cons, ?append_nil_l; cbn [occurs split_from].
  - intros _. by rewrite Ascii.eqb_refl, append_nil_r.
  - intros [Hc Hr]%orb_false_iff. rewrite Hc, IH by done.
    by rewrite snoc_append.
Qed.

(** A line of two fields is split into exactly these. *)
Lemma split_two_fields sep a b :
  occurs sep a = false -> occurs sep b = false ->
  split sep (a +:+ String sep b) = [a; b].
Proof.
  intros Ha Hb. unfold split.
  by rewrite split_from_sep, split_from_none.
Qed.

(** *** Well-formed UTF-8 *)

Lemma utf8_valid_ascii a s :
  all_chars is_ascii a = true -> utf8_valid (a +:+ s) = utf8_valid s.
Proof.
  induction a as [|c a IH]; [done|].
  rewrite append_cons. cbn [all_chars utf8_valid].
  intros [-> Ha]%andb_true_iff. by apply IH.
Qed.

Lemma utf8_valid_app a b :
  utf8_valid a = true -> utf8_valid b = true -> utf8_valid (a +:+ b) = true.
Proof.
  intros Ha Hb. remember (String.length a) as n eqn:Hn.
  revert a Hn Ha. induction n as [n IH] using lt_wf_ind. intros a -> Ha.
  destruct a as [|b0 r0]; [done|].
  rewrite append_cons. cbn [utf8_valid] in *.
  destruct (is_ascii b0).
  { apply (IH (String.length r0)); simpl; (lia || done). }
  destruct r0 as [|b1 r1]; [done|]. rewrite append_cons.
  destruct (in_range 194 223 b0).
  { apply andb_true_iff in Ha as [-> Ha]. cbn [andb].
    apply (IH (String.length r1)); simpl; (lia || done). }
  destruct r1 as [|b2 r2]; [done|]. rewrite append_cons.
  destruct (in_range 224 239 b0).
  { apply andb_true_iff in Ha as [-> Ha]. cbn [andb].
    apply (IH (String.length r2)); simpl; (lia || done). }
  destruct r2 as [|b3 r3]; [done|]. rewrite append_cons.
  apply andb_true_iff in Ha as [-> Ha]. cbn [andb].
  apply (IH (String.length r3)); simpl; (lia || done).
Qed.

(** *** The output of a query that follows its protocol *)

Lemma all_chars_impl (p q : ascii -> bool) s :
  (forall c, p c = true -> q c = true) ->
  all_chars p s = true -> all_chars q s = true.
Proof.
  intros Hpq. induction s as [|c s IH]; [done|]. cbn [all_chars].
  intros [Hc Hs]%andb_true_iff. by rewrite (Hpq c Hc), IH.
Qed.

Lemma plain_ascii c : plain c = true -> is_ascii c = true.
Proof. unfold plain. by intros [? ?]%andb_true_iff. Qed.

Lemma occurs_hex sep s :
  sep = SPACE \/ sep = TAB ->
  all_chars is_hex s = true -> occurs sep s = false.
Proof.
  intros Hsep. induction s as [|c s IH]; [done|]. cbn [all_chars occurs].
  intros [Hc Hs]%andb_true_iff. rewrite IH by done.
  destruct (hex_not_sep c Hc) as [H1 H2].
  destruct Hsep as [-> | ->]; by rewrite ?H1, ?H2.
Qed.

(** The line [<commit><sep><ref>] of a query, with or without its final
    newline: the text decodes, it is a single line, and the line splits
    into the commit and the ref. *)
Lemma protocol_line sep commit outref eol :
  sep = SPACE \/ sep = TAB ->
  all_chars is_hex commit = true ->
  utf8_valid outref = true ->
  has_linebreak outref = false ->
  occurs sep outref = false ->
  eol = "" \/ eol = nl ->
  let out := commit +:+ String sep "" +:+ outref +:+ eol in
  decode out = Some out
  /\ splitlines out = [commit +:+ String sep outref]
  /\ split sep (commit +:+ String sep outref) = [commit; outref].
Proof.
  intros Hsep Hhex Hutf Hline Hocc Heol out.
  assert (plain sep = true) as Hplain by (by destruct Hsep as [-> | ->]).
  assert (out = (commit +:+ String sep outref) +:+ eol) as Hout.
  { unfold out. by rewrite append_assoc. }
  split; [|split].
  - unfold decode, out.
    rewrite utf8_valid_ascii
      by (eapply all_chars_impl; [|done]; intros c Hc;
          by apply plain_ascii, hex_plain).
    change (String sep "" +:+ outref +:+ eol) with (String sep (outref +:+ eol)).
    cbn [utf8_valid]. rewrite (plain_ascii _ Hplain).
    rewrite utf8_valid_app; [done..|]. by destruct Heol as [-> | ->].
  - rewrite Hout. apply splitlines_one_line; [|by destruct commit|done].
    rewrite has_linebreak_plain
      by (eapply all_chars_impl; [|done]; apply hex_plain).
    cbn [has_linebreak]. by rewrite plain_no_break.
  - apply split_two_fields; [|done]. by apply occurs_hex.
Qed.
End Text.
(** ** The status check *)

Section CheckRepo.
Context {FS : Type} (os : OS FS).
Implicit Types (src : Source) (fs : FS).

Lemma query_lines_eq args argv cwd fs :
  argv_strs args = Return argv ->
  query_lines os args cwd fs
  = (let r := lines_of (os_run os argv cwd fs) fs in (r.1, r.2, [Exec argv cwd])).
Proof.
  intros Hargs.
  unfold query_lines, try_except_CalledProcessError, subprocess_check_output,
    run_process, bind, py_decode, lines_of.
  rewrite Hargs. destruct (os_run os argv cwd fs) as [rc out fs'|why]; simpl.
  - destruct (rc =? 0); simpl; [|done].
    by destruct (PyStr.decode out).
  - by destruct why.
Qed.

Lemma get_local_commit_eq src ref fs :
  get_local_commit os src ref fs
  = (let r := lines_of (os_run os (show_ref ref) (Some (source_dir src)) fs) fs in
     (commit_of PyStr.SPACE r.1, r.2, [Exec (show_ref ref) (Some (source_dir src))])).
Proof.
  unfold get_local_commit, bind.
  rewrite (query_lines_eq _ (show_ref ref)) by reflexivity.
  cbv zeta.
  destruct (lines_of _ fs) as [[[out|]|e] fs1]; simpl; try done.
  unfold py_assert, unpack_commit.
  destruct (length out =? 1)%nat; simpl; [|done].
  by destruct (PyStr.split PyStr.SPACE (nth 0 out "")) as [|? [|? [|? ?]]].
Qed.

Lemma get_remote_commit_eq src url ref fs :
  _this_yml src !! "git" = Some (YStr url) ->
  get_remote_commit os src ref fs
  = (let r := lines_of (os_run os (ls_remote url ref) None fs) fs in
     (commit_of PyStr.TAB r.1, r.2, [Exec (ls_remote url ref) None])).
Proof.
  intros Hurl. unfold get_remote_commit.
  rewrite (bind_of_result_Return _ (YStr url)) by (unfold getitem; by rewrite Hurl).
  unfold bind.
  rewrite (query_lines_eq _ (ls_remote url ref)) by reflexivity.
  cbv zeta.
  destruct (lines_of _ fs) as [[[out|]|e] fs1]; simpl; try done.
  unfold py_assert, unpack_commit.
  destruct (length out =? 1)%nat; simpl; [|done].
  by destruct (PyStr.split PyStr.TAB (nth 0 out "")) as [|? [|? [|? ?]]].
Qed.

(** The git path once the directory is there and the refs are built. *)
Lemma check_repo_git src check_remotes fs refs :
  contains (_this_yml src) "git" = true ->
  os_path_isdir os (source_dir src) fs = true ->
  git_refs (_this_yml src) = Return refs ->
  check_repo os src check_remotes fs
  = (let ev := Exec (show_ref refs.2) (Some (source_dir src)) in
     let l := lines_of (os_run os (show_ref refs.2) (Some (source_dir src)) fs) fs in
     match commit_of PyStr.SPACE l.1 with
     | Raise e => (Raise e, l.2, [ev])
     | Return None => (Return MISSING, l.2, [ev])
     | Return (Some local) =>
         if do_check_remote (_this_yml src) check_remotes then
           let r := get_remote_commit os src refs.1 l.2 in
           (match r.1.1 with
            | Raise e => Raise e
            | Return remote =>
                Return (if ne (Some local) remote then OUTDATED else GOOD)
            end, r.1.2,
            ev :: LogInfo ("Checking for remote updates of " +:+ name src) :: r.2)
         else (Return GOOD, l.2, [ev])
     end).
Proof.
  intros Hgit Hdir Hrefs. unfold check_repo. rewrite Hgit.
  rewrite bind_read, Hdir. cbn [negb].
  rewrite (bind_of_result_Return _ refs) by done.
  unfold bind at 1. rewrite get_local_commit_eq. cbv zeta.
  destruct (lines_of _ fs) as [l fs1]. cbn [fst snd].
  destruct (commit_of PyStr.SPACE l) as [[local|]|e]; try done.
  destruct (do_check_remote _ _); [|done].
  unfold log_info. rewrite bind_emit. cbv zeta. unfold bind.
  destruct (get_remote_commit os src refs.1 fs1) as [[[remote|e] fs2] t2]; [|done].
  cbn [fst snd]. destruct (ne (Some local) remote); cbn; by rewrite app_nil_r.
Qed.

Lemma do_check_remote_tag yml check_remotes :
  contains yml "tag" = true -> check_remotes < 2 ->
  do_check_remote yml check_remotes = false.
Proof.
  intros Htag Hlt. unfold do_check_remote. rewrite Htag.
  destruct (check_remotes >=? 2) eqn:E; [lia|].
  by rewrite andb_false_r.
Qed.

Lemma git_absent_dir src check_remotes fs :
  contains (_this_yml src) "git" = true ->
  os_path_isdir os (source_dir src) fs = false ->
  check_repo os src check_remotes fs = (Return MISSING, fs, []).
Proof.
  intros Hgit Hdir. unfold check_repo.
  by rewrite Hgit, bind_read, Hdir.
Qed.

Lemma git_refs_Raise src check_remotes fs e :
  contains (_this_yml src) "git" = true ->
  os_path_isdir os (source_dir src) fs = true ->
  git_refs (_this_yml src) = Raise e ->
  check_repo os src check_remotes fs = (Raise e, fs, []).
Proof.
  intros Hgit Hdir Hrefs. unfold check_repo.
  by rewrite Hgit, bind_read, Hdir, Hrefs.
Qed.

(** C6. For a git source that names a tag, the status check with
    [check_remotes = 1] is the status check with [check_remotes = 0]: the
    same answer, the same file system and the same events, in every state
    of the file system and of the remote; and no event of either reaches
    the network. *)
Theorem check_repo_tag_level_one src fs :
  contains (_this_yml src) "git" = true ->
  contains (_this_yml src) "tag" = true ->
  check_repo os src 1 fs = check_repo os src 0 fs
  /\ filter is_network (trace (check_repo os src 1 fs)) = [].
Proof.
  intros Hgit Htag.
  destruct (os_path_isdir os (source_dir src) fs) eqn:Hdir.
  - destruct (git_refs (_this_yml src)) as [refs|e] eqn:Hrefs.
    + rewrite !(check_repo_git _ _ _ refs) by done.
      rewrite !do_check_remote_tag by (done || lia). cbv zeta.
      split; [done|].
      destruct (lines_of _ fs) as [l fs1]. cbn [fst snd].
      by destruct (commit_of PyStr.SPACE l) as [[local|]|e].
    + by rewrite !(git_refs_Raise _ _ _ e).
  - by rewrite !git_absent_dir.
Qed.

Lemma ne_true a b : ne a b = true <-> a <> b.
Proof.
  destruct a as [x|], b as [y|]; simpl; try (split; [done | done]).
  destruct (String.eqb_spec x y); simpl; split; congruence.
Qed.

(** C1 (amended). For a git source, when the remote check is due and the
    local commit resolved, a remote query that exits non-zero gives
    OUTDATED: the query then yields no commit, and that differs from the
    local commit. OUTDATED is the answer only when the remote check is
    due, the local commit resolved, and what the remote query returned,
    a commit or nothing, differs from it. *)
Theorem check_repo_failed_remote_query src check_remotes fs :
  contains (_this_yml src) "git" = true ->
  (forall refs url local fs1 t1 rc out fs2,
      os_path_isdir os (source_dir src) fs = true ->
      do_check_remote (_this_yml src) check_remotes = true ->
      git_refs (_this_yml src) = Return refs ->
      _this_yml src !! "git" = Some (YStr url) ->
      get_local_commit os src refs.2 fs = (Return (Some local), fs1, t1) ->
      os_run os ["git"; "ls-remote"; "--exit-code"; url; refs.1] None fs1
        = Exited rc out fs2 ->
      rc <> 0 ->
      outcome (check_repo os src check_remotes fs) = Return OUTDATED)
  /\ (outcome (check_repo os src check_remotes fs) = Return OUTDATED ->
      do_check_remote (_this_yml src) check_remotes = true
      /\ exists refs local fs1 t1 remote fs2 t2,
           git_refs (_this_yml src) = Return refs
           /\ get_local_commit os src refs.2 fs = (Return (Some local), fs1, t1)
           /\ get_remote_commit os src refs.1 fs1 = (Return remote, fs2, t2)
           /\ remote <> Some local).
Proof.
  intros Hgit. split.
  - intros refs url local fs1 t1 rc out fs2 Hdir Hdo Hrefs Hurl Hlocal Hrun Hrc.
    rewrite (check_repo_git _ _ _ _ Hgit Hdir Hrefs). cbv zeta.
    rewrite get_local_commit_eq in Hlocal. cbv zeta in Hlocal.
    destruct (lines_of _ fs) as [l fs1']. cbn [fst snd] in *.
    injection Hlocal as Hl -> _. rewrite Hl, Hdo.
    rewrite (get_remote_commit_eq _ url) by done. cbv zeta.
    fold (ls_remote url refs.1) in Hrun. rewrite Hrun. unfold lines_of.
    destruct (rc =? 0) eqn:E; [lia|]. done.
  - destruct (os_path_isdir os (source_dir src) fs) eqn:Hdir;
      [|by rewrite git_absent_dir].
    destruct (git_refs (_this_yml src)) as [refs|e] eqn:Hrefs;
      [|by rewrite (git_refs_Raise _ _ _ e)].
    rewrite (check_repo_git _ _ _ _ Hgit Hdir Hrefs). cbv zeta.
    pose proof (get_local_commit_eq src refs.2 fs) as Hlocal. cbv zeta in Hlocal.
    destruct (lines_of _ fs) as [l fs1]. cbn [fst snd] in *.
    destruct (commit_of PyStr.SPACE l) as [[local|]|e]; try done.
    destruct (do_check_remote _ _); [|done].
    destruct (get_remote_commit os src refs.1 fs1) as [[[remote|e] fs2] t2] eqn:Hremote;
      [|done].
    unfold outcome. cbn [fst snd].
    destruct (ne (Some local) remote) eqn:Hne; [|done]. intros _.
    split; [done|]. eexists refs, local, fs1, _, remote, fs2, t2.
    repeat split; try done. apply ne_true in Hne. congruence.
Qed.

(** C3 (amended). When the source directory is absent, the status check
    of a git, mercurial or subversion source answers MISSING, whatever
    [check_remotes] is, without starting a process or reaching the
    network and without touching the file system. For an archive source
    the directory is not consulted, whether it exists or not: the answer
    is GOOD when the archive file is there and MISSING when it is not,
    again without any event. *)
Theorem check_repo_absent_dir src check_remotes fs :
  (os_path_isdir os (source_dir src) fs = false ->
   contains (_this_yml src) "git" || contains (_this_yml src) "hg"
     || contains (_this_yml src) "svn" = true ->
   check_repo os src check_remotes fs = (Return MISSING, fs, []))
  /\ (contains (_this_yml src) "git" || contains (_this_yml src) "hg"
        || contains (_this_yml src) "svn" = false ->
      contains (_this_yml src) "url" = true ->
      check_repo os src check_remotes fs
      = (Return (if os_access_F_OK os (source_archive_file src) fs
                 then GOOD else MISSING), fs, [])).
Proof.
  unfold check_repo. split.
  - intros Hdir Hkind.
    destruct (contains _ "git"); [by rewrite bind_read, Hdir|].
    destruct (contains _ "hg"); [by rewrite bind_read, Hdir|].
    destruct (contains _ "svn"); [by rewrite bind_read, Hdir|done].
  - intros Hkind Hurl.
    destruct (contains _ "git"); [done|].
    destruct (contains _ "hg"); [done|].
    destruct (contains _ "svn"); [done|].
    rewrite Hurl. unfold py_assert. rewrite bind_ret, bind_read.
    by destruct (os_access_F_OK _ _ _).
Qed.

(** The mercurial path once the directory is there and the revision is
    a string. *)
Lemma check_repo_hg src check_remotes fs rev :
  contains (_this_yml src) "git" = false ->
  contains (_this_yml src) "hg" = true ->
  os_path_isdir os (source_dir src) fs = true ->
  (if contains (_this_yml src) "tag" then getitem (_this_yml src) "tag"
   else getitem (_this_yml src) "branch") = Return (YStr rev) ->
  check_repo os src check_remotes fs
  = (let argv := ["hg"; "manifest"; "--pager"; "never"; "-r"; rev] in
     match os_run os argv (Some (source_dir src)) fs with
     | Exited rc out fs' =>
         (Return (if rc =? 0 then GOOD else MISSING), fs',
          [Exec argv (Some (source_dir src))])
     | NotStarted why =>
         (Raise (spawn_exn why), fs, [Exec argv (Some (source_dir src))])
     end).
Proof.
  intros Hgit Hhg Hdir Hrev. unfold check_repo.
  rewrite Hgit, Hhg, bind_read, Hdir. cbn [negb].
  rewrite (bind_of_result_Return _ (YStr rev)) by done.
  unfold subprocess_call, run_process, bind. cbn [argv_strs arg_str].
  cbv zeta. destruct (os_run _ _ _ _) as [rc out fs'|why]; [|done].
  unfold ret. cbn [fst snd app]. destruct (rc =? 0); reflexivity.
Qed.

Lemma ref_ok_rev yml :
  ref_ok yml = true ->
  exists rev, (if contains yml "tag" then getitem yml "tag"
               else getitem yml "branch") = Return (YStr rev).
Proof.
  unfold ref_ok, getitem, is_str.
  destruct (contains yml "tag").
  - destruct (yml !! "tag") as [[]|]; try done. eauto.
  - destruct (yml !! "branch") as [[]|]; try done. eauto.
Qed.

(** C9. For a source that is not a git source (mercurial, subversion or
    archive), the status check never answers OUTDATED, whatever
    [check_remotes] and the file system are; and for a well-formed
    descriptor, when the mercurial process can be started, it does
    answer, with GOOD or with MISSING. *)
Theorem check_repo_non_git src check_remotes fs :
  contains (_this_yml src) "git" = false ->
  outcome (check_repo os src check_remotes fs) <> Return OUTDATED
  /\ (well_formed (_this_yml src) = true ->
      (forall argv cwd why, os_run os argv cwd fs <> NotStarted why) ->
      outcome (check_repo os src check_remotes fs) = Return GOOD
      \/ outcome (check_repo os src check_remotes fs) = Return MISSING).
Proof.
  intros Hgit.
  destruct (contains (_this_yml src) "hg") eqn:Hhg.
  { destruct (os_path_isdir os (source_dir src) fs) eqn:Hdir.
    - destruct (if contains (_this_yml src) "tag"
                then getitem (_this_yml src) "tag"
                else getitem (_this_yml src) "branch") as [rev|e] eqn:Hrev.
      + assert ((exists r, rev = YStr r) \/ ~ (exists r, rev = YStr r))
          as [[r ->]|Hno].
        { destruct rev; [right; by intros [? ?]..|left; eauto]. }
        * rewrite (check_repo_hg _ _ _ r) by done. cbv zeta.
          destruct (os_run _ _ _ _) as [rc out fs'|why] eqn:Hrun.
          -- unfold outcome; cbn [fst snd].
             destruct (rc =? 0); split; (done || auto).
          -- split; [by destruct why|]. intros _ Hstart.
             by destruct (Hstart _ _ _ Hrun).
        * split.
          -- unfold check_repo, subprocess_call, run_process.
             rewrite Hgit, Hhg, bind_read, Hdir. cbn [negb].
             rewrite (bind_of_result_Return _ rev) by done.
             unfold bind. cbn [argv_strs arg_str].
             destruct rev; try done. destruct Hno; eauto.
          -- unfold well_formed. rewrite Hgit, Hhg.
             intros [_ Hok]%andb_true_iff.
             destruct (ref_ok_rev _ Hok) as [r Hr]. destruct Hno.
             exists r. congruence.
      + split.
        * unfold check_repo. rewrite Hgit, Hhg, bind_read, Hdir. cbn [negb].
          by rewrite Hrev.
        * unfold well_formed. rewrite Hgit, Hhg.
          intros [_ Hok]%andb_true_iff.
          destruct (ref_ok_rev _ Hok) as [r Hr]. congruence.
    - unfold check_repo. rewrite Hgit, Hhg, bind_read, Hdir.
      split; [done|auto]. }
  unfold check_repo, well_formed. rewrite Hgit, Hhg.
  destruct (contains (_this_yml src) "svn").
  { rewrite bind_read.
    destruct (os_path_isdir _ _ _); split; (done || auto). }
  unfold contains, is_str, py_assert.
  destruct (_this_yml src !! "url") as [u|].
  - rewrite bind_ret, bind_read.
    destruct (os_access_F_OK _ _ _); split; (done || auto).
  - split; done.
Qed.

(** *** The status check changes nothing *)

Lemma read_only_ret {A} (a : A) : read_only (ret a : M FS A).
Proof. done. Qed.

Lemma read_only_raise {A} e : read_only (raise e : M FS A).
Proof. done. Qed.

Lemma read_only_read {A} (f : FS -> A) : read_only (read f).
Proof. done. Qed.

Lemma read_only_log msg : read_only (log_info msg : M FS unit).
Proof. done. Qed.

Lemma read_only_of_result {A} (r : result A) : read_only (of_result r : M FS A).
Proof. by destruct r. Qed.

Lemma read_only_assert b : read_only (py_assert b : M FS unit).
Proof. by destruct b. Qed.

Lemma read_only_bind {A B} (m : M FS A) (k : A -> M FS B) :
  read_only m -> (forall a, read_only (k a)) -> read_only (bind m k).
Proof.
  intros Hm Hk fs. unfold bind. destruct (Hm fs) as [Hfs Htr].
  destruct (m fs) as [[[a|e] fs1] t1]; unfold final_fs, trace in *;
    cbn [fst snd] in *; subst fs1; [|done].
  destruct (Hk a fs) as [Hfs' Htr'].
  destruct (k a fs) as [[r fs2] t2]; unfold final_fs, trace in *;
    cbn [fst snd] in *.
  split; [done|]. rewrite forallb_app. by rewrite Htr, Htr'.
Qed.

Lemma read_only_try {A} (body handler : M FS A) :
  read_only body -> read_only handler ->
  read_only (try_except_CalledProcessError body handler).
Proof.
  intros Hb Hh fs. unfold try_except_CalledProcessError.
  destruct (Hb fs) as [Hfs Htr].
  destruct (body fs) as [[[a|e] fs1] t1]; unfold final_fs, trace in *;
    cbn [fst snd] in *; subst fs1; [done|].
  destruct e; try done.
  destruct (Hh fs) as [Hfs' Htr'].
  destruct (handler fs) as [[r fs2] t2]; unfold final_fs, trace in *;
    cbn [fst snd] in *.
  split; [done|]. rewrite forallb_app. by rewrite Htr, Htr'.
Qed.

Lemma read_only_run args cwd :
  queries_read_only os ->
  (forall argv, argv_strs args = Return argv -> is_query argv = true) ->
  read_only (run_process os args cwd).
Proof.
  intros Hos Hq fs. unfold run_process.
  destruct (argv_strs args) as [argv|e]; [|done].
  specialize (Hq argv eq_refl).
  destruct (os_run os argv cwd fs) as [rc out fs'|why] eqn:Hrun;
    unfold final_fs, trace; cbn [fst snd forallb quiet]; rewrite Hq.
  - split; [|done]. by apply (Hos argv cwd fs rc out fs').
  - done.
Qed.

Lemma argv_strs_query tool verb rest argv :
  is_query [tool; verb] = true ->
  argv_strs (Lit tool :: Lit verb :: rest) = Return argv ->
  is_query argv = true.
Proof.
  intros Hq. cbn [argv_strs arg_str].
  destruct (argv_strs rest) as [l|e]; [|done].
  by intros [= <-].
Qed.

Ltac read_only_step :=
  first
    [ apply read_only_bind; [|intros ?]
    | apply read_only_try
    | apply read_only_ret
    | apply read_only_raise
    | apply read_only_read
    | apply read_only_log
    | apply read_only_of_result
    | apply read_only_assert
    | apply read_only_run;
      [assumption | intros ?; by apply argv_strs_query]
    | match goal with
      | |- read_only (if ?b then _ else _) => destruct b
      | |- read_only (match ?x with _ => _ end) => destruct x
      end ].

(** C8. The status check performs no mutation of the file system, for
    every descriptor, every [check_remotes] and every file system: the
    module itself only tests for a directory or a file and starts the
    queries [git show-ref], [git ls-remote] and [hg manifest], and, these
    being read-only, the file system after the call is the one before
    it. *)
Theorem check_repo_read_only src check_remotes fs :
  queries_read_only os ->
  final_fs (check_repo os src check_remotes fs) = fs
  /\ forallb quiet (trace (check_repo os src check_remotes fs)) = true.
Proof.
  intros Hos. revert fs. change (read_only (check_repo os src check_remotes)).
  unfold check_repo, get_local_commit, get_remote_commit, query_lines,
    unpack_commit, subprocess_check_output, subprocess_call, py_decode.
  repeat read_only_step.
Qed.

(** *** Reading the commit *)

Lemma commit_of_protocol_line sep commit outref eol fs fs' :
  sep = PyStr.SPACE \/ sep = PyStr.TAB ->
  PyStr.all_chars PyStr.is_hex commit = true ->
  PyStr.utf8_valid outref = true ->
  PyStr.has_linebreak outref = false ->
  PyStr.occurs sep outref = false ->
  eol = "" \/ eol = PyStr.nl ->
  lines_of (Exited 0 (commit +:+ String sep "" +:+ outref +:+ eol) fs') fs
    = (Return (Some [commit +:+ String sep outref]), fs')
  /\ commit_of sep (Return (Some [commit +:+ String sep outref]))
     = Return (Some commit).
Proof.
  intros Hsep Hhex Hutf Hline Hocc Heol.
  destruct (protocol_line sep commit outref eol) as (Hdec & Hlines & Hsplit);
    try done.
  cbv zeta in *. split.
  - unfold lines_of. cbn [Z.eqb]. by rewrite Hdec, Hlines.
  - unfold commit_of. cbn [length Nat.eqb nth]. by rewrite Hsplit.
Qed.

(** C5. For a git source whose directory exists, the status check first
    looks up the tracking ref, [refs/tags/<tag>] for a tag and
    [refs/remotes/origin/<branch>] for a branch, with
    [git show-ref --verify] run in the source directory. When that
    look-up exits non-zero the answer is MISSING and nothing else is
    done. When it exits with zero and prints the commit and the ref, that
    commit is the local commit of the check: it is what
    [get_local_commit] returns, the answer is not MISSING but GOOD when
    no remote check is due, and when one is due it is this commit that
    is compared with what the remote query returned. *)
Theorem check_repo_local_lookup src check_remotes fs ref tracking :
  contains (_this_yml src) "git" = true ->
  os_path_isdir os (source_dir src) fs = true ->
  ((exists t, _this_yml src !! "tag" = Some (YStr t)
              /\ ref = "refs/tags/" +:+ t
              /\ tracking = "refs/tags/" +:+ t)
   \/ (exists b, _this_yml src !! "tag" = None
                 /\ _this_yml src !! "branch" = Some (YStr b)
                 /\ ref = "refs/heads/" +:+ b
                 /\ tracking = "refs/remotes/origin/" +:+ b)) ->
  let lookup := Exec ["git"; "show-ref"; "--verify"; tracking]
                  (Some (source_dir src)) in
  head (trace (check_repo os src check_remotes fs)) = Some lookup
  /\ (forall rc out fs',
         os_run os ["git"; "show-ref"; "--verify"; tracking]
           (Some (source_dir src)) fs = Exited rc out fs' ->
         rc <> 0 ->
         check_repo os src check_remotes fs = (Return MISSING, fs', [lookup]))
  /\ (forall commit outref eol fs',
         os_run os ["git"; "show-ref"; "--verify"; tracking]
           (Some (source_dir src)) fs
           = Exited 0 (commit +:+ " " +:+ outref +:+ eol) fs' ->
         PyStr.all_chars PyStr.is_hex commit = true ->
         PyStr.utf8_valid outref = true ->
         PyStr.has_linebreak outref = false ->
         PyStr.occurs PyStr.SPACE outref = false ->
         eol = "" \/ eol = PyStr.nl ->
         get_local_commit os src tracking fs
         = (Return (Some commit), fs', [lookup])
         /\ (do_check_remote (_this_yml src) check_remotes = false ->
             check_repo os src check_remotes fs = (Return GOOD, fs', [lookup]))
         /\ (do_check_remote (_this_yml src) check_remotes = true ->
             forall remote fs2 t2,
               get_remote_commit os src ref fs' = (Return remote, fs2, t2) ->
               check_repo os src check_remotes fs
               = (Return (if ne (Some commit) remote then OUTDATED else GOOD),
                  fs2,
                  lookup
                  :: LogInfo ("Checking for remote updates of " +:+ name src)
                  :: t2))).
Proof.
  intros Hgit Hdir Href lookup.
  assert (git_refs (_this_yml src) = Return (ref, tracking)) as Hrefs.
  { unfold git_refs, contains, getitem.
    destruct Href as [(t & Ht & -> & ->)|(b & Ht & Hb & -> & ->)].
    - by rewrite Ht.
    - by rewrite Ht, Hb. }
  rewrite (check_repo_git _ _ _ _ Hgit Hdir Hrefs). cbv zeta. cbn [fst snd].
  fold (show_ref tracking). fold lookup. split; [|split].
  - destruct (lines_of _ fs) as [l fs1]. cbn [fst snd].
    destruct (commit_of PyStr.SPACE l) as [[local|]|e]; try done.
    by destruct (do_check_remote _ _).
  - intros rc out fs' Hrun Hrc. rewrite Hrun. unfold lines_of.
    destruct (rc =? 0) eqn:E; [lia|]. done.
  - intros commit outref eol fs' Hrun Hhex Hutf Hline Hocc Heol.
    destruct (commit_of_protocol_line PyStr.SPACE commit outref eol fs fs')
      as [Hl Hc]; auto.
    change (String PyStr.SPACE "") with " " in Hl.
    rewrite get_local_commit_eq. cbv zeta. rewrite Hrun, Hl.
    cbn [fst snd]. rewrite Hc. split; [done|]. split.
    + by intros ->.
    + intros -> remote fs2 t2 ->. done.
Qed.

(** C10. When [git show-ref] (resp. [git ls-remote]) exits with zero and
    prints what its protocol says, one line made of a commit identifier
    (hexadecimal digits), a space (resp. a tab) and a ref name (text
    without that separator and without a line boundary), ended or not by
    a newline, then the assertion on the number of lines holds, the split
    yields two fields, and the commit identifier is returned. *)
Theorem commit_extraction_total src ref fs fs' commit outref eol :
  PyStr.all_chars PyStr.is_hex commit = true ->
  PyStr.utf8_valid outref = true ->
  PyStr.has_linebreak outref = false ->
  eol = "" \/ eol = PyStr.nl ->
  (PyStr.occurs PyStr.SPACE outref = false ->
   os_run os ["git"; "show-ref"; "--verify"; ref] (Some (source_dir src)) fs
     = Exited 0 (commit +:+ " " +:+ outref +:+ eol) fs' ->
   get_local_commit os src ref fs
   = (Return (Some commit), fs',
      [Exec ["git"; "show-ref"; "--verify"; ref] (Some (source_dir src))]))
  /\ (PyStr.occurs PyStr.TAB outref = false ->
      forall url,
        _this_yml src !! "git" = Some (YStr url) ->
        os_run os ["git"; "ls-remote"; "--exit-code"; url; ref] None fs
          = Exited 0 (commit +:+ PyStr.tab +:+ outref +:+ eol) fs' ->
        get_remote_commit os src ref fs
        = (Return (Some commit), fs',
           [Exec ["git"; "ls-remote"; "--exit-code"; url; ref] None])).
Proof.
  intros Hhex Hutf Hline Heol. split.
  - intros Hocc Hrun. rewrite get_local_commit_eq. cbv zeta.
    unfold show_ref. rewrite Hrun.
    destruct (commit_of_protocol_line PyStr.SPACE commit outref eol fs fs')
      as [Hl Hc]; auto.
    change (String PyStr.SPACE "") with " " in Hl. rewrite Hl.
    cbn [fst snd]. by rewrite Hc.
  - intros Hocc url Hurl Hrun. rewrite (get_remote_commit_eq _ url) by done.
    cbv zeta. unfold ls_remote. rewrite Hrun.
    destruct (commit_of_protocol_line PyStr.TAB commit outref eol fs fs')
      as [Hl Hc]; auto.
    change (String PyStr.TAB "") with PyStr.tab in Hl. rewrite Hl.
    cbn [fst snd]. by rewrite Hc.
Qed.
End CheckRepo.

(** ** The fetch *)

Section FetchRepo.
Context {FS : Type} (os : OS FS).
Implicit Types (cfg : Config) (src : Source) (fs : FS).

Lemma trace_bind {A B} (m : M FS A) (k : A -> M FS B) fs :
  trace (bind m k fs)
  = trace (m fs)
    ++ match outcome (m fs) with
       | Return a => trace (k a (final_fs (m fs)))
       | Raise _ => []
       end.
Proof.
  unfold bind, trace, outcome, final_fs.
  destruct (m fs) as [[[a|e] fs1] t1]; cbn [fst snd].
  - by destruct (k a fs1) as [[? ?] ?].
  - by rewrite app_nil_r.
Qed.

Lemma outcome_bind {A B} (m : M FS A) (k : A -> M FS B) fs :
  outcome (bind m k fs)
  = match outcome (m fs) with
    | Return a => outcome (k a (final_fs (m fs)))
    | Raise e => Raise e
    end.
Proof.
  unfold bind, trace, outcome, final_fs.
  destruct (m fs) as [[[a|e] fs1] t1]; cbn [fst snd]; [|done].
  by destruct (k a fs1) as [[? ?] ?].
Qed.

Lemma trace_check_call args cwd fs :
  trace (subprocess_check_call os args cwd fs)
  = match argv_strs args with
    | Return argv => [Exec argv cwd]
    | Raise _ => []
    end.
Proof.
  unfold subprocess_check_call, run_process, bind, trace.
  destruct (argv_strs args) as [argv|e]; [|done].
  destruct (os_run os argv cwd fs) as [rc out fs'|why]; [|done].
  cbn [fst snd]. by destruct (rc =? 0).
Qed.

Lemma outcome_check_call args cwd fs :
  outcome (subprocess_check_call os args cwd fs) = Return tt ->
  exists argv, argv_strs args = Return argv.
Proof.
  unfold subprocess_check_call, run_process, bind, outcome.
  destruct (argv_strs args) as [argv|e]; [eauto|done].
Qed.

Lemma trace_update f fs : trace (update f fs : result unit * FS * list event) = [].
Proof. unfold update, trace. by destruct (f fs). Qed.

Lemma trace_of_result {A} (r : result A) fs : trace (of_result r fs) = [].
Proof. by destruct r. Qed.

(** The argument vector that lines 100 to 123 build, when they build
    one: the tool, [fetch], the flag if it is requested, the URL and what
    is to be fetched. *)
Lemma git_fetch_args_argv git yml rolling fixed_commit init args argv :
  git_fetch_args git yml rolling fixed_commit init = Return args ->
  argv_strs args = Return argv ->
  exists url,
    yml !! "git" = Some (YStr url)
    /\ argv = fetch_argv git url
                (depth_requested yml rolling fixed_commit init) (ref_args yml).
Proof.
  unfold git_fetch_args, depth_requested, shallow_allowed, fetch_argv, ref_args,
    contains, getitem.
  set (disabled := truthy (get_default yml "disable_shallow_fetch" (YBool false))).
  destruct (yml !! "tag") as [tag|] eqn:Htag.
  - destruct (yml !! "git") as [url|]; [|done]. intros [= <-].
    destruct rolling, disabled; cbn [negb andb app argv_strs arg_str];
      destruct url as [| | |url]; try done;
      destruct tag as [| | |tag]; try done; intros [= <-]; eauto.
  - destruct (yml !! "git") as [url|]; [|done].
    destruct (yml !! "branch") as [branch|]; [|done].
    destruct branch as [| | |branch]; try done. cbn [str_add].
    intros [= <-].
    destruct (yml !! "commit"), (is_not_None fixed_commit), init, rolling, disabled;
      cbn [negb andb orb app argv_strs arg_str];
      destruct url as [| | |url]; try done; intros [= <-];
      rewrite !append_assoc; eauto.
Qed.

Lemma prepare_no_fetch git src fs ev :
  ev ∈ trace (prepare os git src fs) -> is_fetch ev = false.
Proof.
  unfold prepare. rewrite trace_bind, trace_update. cbn [app].
  destruct (outcome (update _ fs)); [|by intros ?%elem_of_nil].
  rewrite trace_bind, trace_check_call. cbn [argv_strs arg_str app].
  intros [->|Hev]%elem_of_cons; [done|]. revert Hev.
  destruct (outcome (subprocess_check_call _ _ _ _)); [|by intros ?%elem_of_nil].
  rewrite trace_bind, trace_of_result. cbn [app].
  destruct (outcome (of_result _ _)) as [url|]; [|by intros ?%elem_of_nil].
  rewrite trace_check_call. cbn [argv_strs arg_str].
  destruct url; try by intros ?%elem_of_nil.
  by intros ->%list_elem_of_singleton.
Qed.

(** The git path of the fetch, once the tool is found. *)
Lemma fetch_repo_git cfg src fs git :
  contains (_this_yml src) "git" = true ->
  shutil_which os "git" fs = Some git ->
  fetch_repo os cfg src fs
  = (let init := negb (os_path_isdir os (source_dir src) fs) in
     let* _ := if init then prepare os git src else ret tt in
     let* args := of_result
                    (git_fetch_args git (_this_yml src) (is_rolling_version src)
                       (fixed_commit_of cfg src) init) in
     subprocess_check_call os args (Some (source_dir src))) fs.
Proof.
  intros Hgit Hwhich. unfold fetch_repo.
  by rewrite Hgit, bind_read, Hwhich, bind_read.
Qed.

Lemma fetch_repo_no_tool cfg src fs :
  contains (_this_yml src) "git" = true ->
  shutil_which os "git" fs = None ->
  fetch_repo os cfg src fs = (Raise (NameError "GenericException"), fs, []).
Proof.
  intros Hgit Hwhich. unfold fetch_repo.
  by rewrite Hgit, bind_read, Hwhich.
Qed.

(** Every [git fetch] that the fetch of a git source starts has the
    argument vector of [fetch_argv]. *)
Lemma fetch_event_shape cfg src fs ev :
  contains (_this_yml src) "git" = true ->
  ev ∈ trace (fetch_repo os cfg src fs) ->
  is_fetch ev = true ->
  exists git url,
    shutil_which os "git" fs = Some git
    /\ _this_yml src !! "git" = Some (YStr url)
    /\ ev = Exec (fetch_argv git url
                    (depth_requested (_this_yml src) (is_rolling_version src)
                       (fixed_commit_of cfg src)
                       (negb (os_path_isdir os (source_dir src) fs)))
                    (ref_args (_this_yml src)))
              (Some (source_dir src)).
Proof.
  intros Hgit. destruct (shutil_which os "git" fs) as [git|] eqn:Hwhich;
    [|rewrite fetch_repo_no_tool by done; by intros ?%elem_of_nil].
  rewrite (fetch_repo_git _ _ _ git) by done. cbv zeta.
  rewrite trace_bind. intros [Hev|Hev]%elem_of_app Hfetch.
  { destruct (negb _); [|by apply elem_of_nil in Hev].
    apply prepare_no_fetch in Hev. congruence. }
  destruct (outcome _); [|by apply elem_of_nil in Hev].
  rewrite trace_bind, trace_of_result in Hev. cbn [app] in Hev.
  destruct (git_fetch_args _ _ _ _ _) as [args|e] eqn:Hargs;
    [|by apply elem_of_nil in Hev].
  cbn [of_result outcome ret fst] in Hev.
  rewrite trace_check_call in Hev.
  destruct (argv_strs args) as [argv|e] eqn:Hargv;
    [|by apply elem_of_nil in Hev].
  apply list_elem_of_singleton in Hev as ->.
  destruct (git_fetch_args_argv _ _ _ _ _ _ _ Hargs Hargv) as (url & Hurl & ->).
  eauto.
Qed.

(** A fetch of a git source that returns has started [git fetch]. *)
Lemma fetch_repo_git_fetches cfg src fs :
  contains (_this_yml src) "git" = true ->
  outcome (fetch_repo os cfg src fs) = Return tt ->
  existsb is_fetch (trace (fetch_repo os cfg src fs)) = true.
Proof.
  intros Hgit. destruct (shutil_which os "git" fs) as [git|] eqn:Hwhich;
    [|by rewrite fetch_repo_no_tool].
  rewrite (fetch_repo_git _ _ _ git) by done. cbv zeta.
  rewrite outcome_bind, trace_bind, existsb_app.
  destruct (outcome _) as [[]|]; [|done].
  rewrite outcome_bind, trace_bind, trace_of_result. cbn [app].
  destruct (git_fetch_args _ _ _ _ _) as [args|e] eqn:Hargs; [|done].
  cbn [of_result outcome ret fst].
  intros [argv Hargv]%outcome_check_call.
  rewrite trace_check_call, Hargv.
  destruct (git_fetch_args_argv _ _ _ _ _ _ _ Hargs Hargv) as (url & Hurl & ->).
  cbn [existsb]. by rewrite !orb_true_r.
Qed.

Lemma shallow_is_fetch ev : is_shallow_fetch ev = true -> is_fetch ev = true.
Proof.
  destruct ev as [[|tool [|verb [|flag rest]]] cwd| |]; try done.
  cbn. by intros [-> _]%andb_true_iff.
Qed.

(** C7. For a git source with a rolling version, every [git fetch] that
    the fetch starts is [git fetch <url> <what>] with the URL right after
    [fetch], for a tag as for a branch and whether or not the repository
    was just initialised; so, the URL not being the flag itself, no
    process is given the depth-limiting flag. A fetch that returns has
    started such a [git fetch]. *)
Theorem fetch_repo_rolling_never_shallow cfg src fs :
  contains (_this_yml src) "git" = true ->
  is_rolling_version src = true ->
  (forall ev,
      ev ∈ trace (fetch_repo os cfg src fs) -> is_fetch ev = true ->
      exists git url,
        shutil_which os "git" fs = Some git
        /\ _this_yml src !! "git" = Some (YStr url)
        /\ ev = Exec ([git; "fetch"; url] ++ ref_args (_this_yml src))
                  (Some (source_dir src)))
  /\ (_this_yml src !! "git" <> Some (YStr "--depth=1") ->
      existsb is_shallow_fetch (trace (fetch_repo os cfg src fs)) = false)
  /\ (outcome (fetch_repo os cfg src fs) = Return tt ->
      existsb is_fetch (trace (fetch_repo os cfg src fs)) = true).
Proof.
  intros Hgit Hroll.
  assert (forall init,
             depth_requested (_this_yml src) (is_rolling_version src)
               (fixed_commit_of cfg src) init = false) as Hdepth.
  { intros init. unfold depth_requested, shallow_allowed. rewrite Hroll.
    rewrite !andb_false_r. by destruct (contains _ "tag"), init. }
  assert (forall ev,
             ev ∈ trace (fetch_repo os cfg src fs) -> is_fetch ev = true ->
             exists git url,
               shutil_which os "git" fs = Some git
               /\ _this_yml src !! "git" = Some (YStr url)
               /\ ev = Exec ([git; "fetch"; url] ++ ref_args (_this_yml src))
                         (Some (source_dir src))) as Hshape.
  { intros ev Hev Hfetch.
    destruct (fetch_event_shape _ _ _ _ Hgit Hev Hfetch)
      as (git & url & Hwhich & Hurl & ->).
    rewrite Hdepth. by exists git, url. }
  split; [done|]. split; [|by apply fetch_repo_git_fetches].
  intros Hurl. apply not_true_is_false. intros Hex.
  apply existsb_exists in Hex as (ev & Hev & Hshallow).
  apply list_elem_of_In in Hev.
  destruct (Hshape ev Hev (shallow_is_fetch _ Hshallow))
    as (git & url & _ & Hurl' & ->).
  cbn in Hshallow. destruct (String.eqb_spec url "--depth=1"); [|done].
  congruence.
Qed.

(** C2 (amended). For a git source, every [git fetch] that the fetch
    starts has the depth-limiting flag exactly when it is requested: for
    a tag, when [disable_shallow_fetch] is false and the version is not
    rolling, whatever the pins are; for a branch, when moreover the
    repository was just initialised, the descriptor has no [commit] and
    the commit record has no [fixed_commit]. In particular a branch with
    a [fixed_commit] is never fetched with the flag, also on first
    initialisation. A fetch that returns has started such a
    [git fetch]. *)
Theorem fetch_repo_depth_flag cfg src fs :
  contains (_this_yml src) "git" = true ->
  let yml := _this_yml src in
  let init := negb (os_path_isdir os (source_dir src) fs) in
  let unrestricted :=
    negb (truthy (get_default yml "disable_shallow_fetch" (YBool false)))
    && negb (is_rolling_version src) in
  let depth :=
    if contains yml "tag" then unrestricted
    else init && unrestricted && negb (contains yml "commit")
         && negb (is_not_None (fixed_commit_of cfg src)) in
  (forall ev,
      ev ∈ trace (fetch_repo os cfg src fs) -> is_fetch ev = true ->
      exists git url,
        shutil_which os "git" fs = Some git
        /\ yml !! "git" = Some (YStr url)
        /\ ev = Exec ([git; "fetch"] ++ (if depth then ["--depth=1"] else [])
                        ++ url :: ref_args yml)
                  (Some (source_dir src)))
  /\ (yml !! "git" <> Some (YStr "--depth=1") ->
      existsb is_shallow_fetch (trace (fetch_repo os cfg src fs)) = true ->
      depth = true)
  /\ (outcome (fetch_repo os cfg src fs) = Return tt ->
      existsb is_fetch (trace (fetch_repo os cfg src fs)) = true).
Proof.
  intros Hgit yml init unrestricted depth.
  assert (forall ev,
             ev ∈ trace (fetch_repo os cfg src fs) -> is_fetch ev = true ->
             exists git url,
               shutil_which os "git" fs = Some git
               /\ yml !! "git" = Some (YStr url)
               /\ ev = Exec ([git; "fetch"]
                               ++ (if depth then ["--depth=1"] else [])
                               ++ url :: ref_args yml)
                         (Some (source_dir src))) as Hshape.
  { intros ev Hev Hfetch.
    destruct (fetch_event_shape _ _ _ _ Hgit Hev Hfetch)
      as (git & url & Hwhich & Hurl & ->).
    by exists git, url. }
  split; [done|]. split; [|by apply fetch_repo_git_fetches].
  intros Hurl Hex.
  apply existsb_exists in Hex as (ev & Hev & Hshallow).
  apply list_elem_of_In in Hev.
  destruct (Hshape ev Hev (shallow_is_fetch _ Hshallow))
    as (git & url & _ & Hurl' & ->).
  destruct depth; [done|]. cbn in Hshallow.
  destruct (String.eqb_spec url "--depth=1"); [|done]. congruence.
Qed.
End FetchRepo.

(** ** Runs on the sample system

    The scenarios of a first fetch, of an update and of an archive. *)

Example sample_runs :
  outcome (check_repo Sample.system Sample.branch_src 0 Sample.empty_disk) = Return MISSING
  /\ outcome (check_repo Sample.system Sample.branch_src 0 Sample.fetched_disk) = Return GOOD
  /\ outcome (check_repo Sample.system Sample.branch_src 1 Sample.fetched_disk) = Return OUTDATED
  /\ outcome (check_repo Sample.system Sample.tag_src 2 Sample.fetched_disk) = Return GOOD
  /\ outcome (check_repo Sample.system Sample.branch_src 1 Sample.offline_disk) = Return OUTDATED
  /\ outcome (check_repo Sample.system Sample.hg_src 2 Sample.fetched_disk) = Return GOOD
  /\ outcome (check_repo Sample.system Sample.archive_src 2 Sample.archive_disk) = Return GOOD
  /\ trace (fetch_repo Sample.system Sample.no_pins Sample.branch_src Sample.empty_disk)
     = [Exec ["/usr/bin/git"; "init"] (Some "/src/repo");
        Exec ["/usr/bin/git"; "remote"; "add"; "origin"; Sample.repo_url] (Some "/src/repo");
        Exec ["/usr/bin/git"; "fetch"; "--depth=1"; Sample.repo_url;
              "refs/heads/main:refs/remotes/origin/main"] (Some "/src/repo")]
  /\ trace (fetch_repo Sample.system Sample.pinned Sample.tag_src Sample.empty_disk)
     = [Exec ["/usr/bin/git"; "init"] (Some "/src/repo");
        Exec ["/usr/bin/git"; "remote"; "add"; "origin"; Sample.repo_url] (Some "/src/repo");
        Exec ["/usr/bin/git"; "fetch"; "--depth=1"; Sample.repo_url;
              "tag"; "v1.0"] (Some "/src/repo")]
  /\ outcome (fetch_repo Sample.system Sample.no_pins Sample.branch_src Sample.bare_disk)
     = Raise (NameError "GenericException").
Proof. repeat split; vm_compute; reflexivity. Qed.

(** ** The properties on the sample system *)

Lemma sample_queries_read_only : queries_read_only Sample.system.
Proof. intros argv cwd fs rc out fs' _ [= _ _ <-]. reflexivity. Qed.

(** C1, as stated, fails: the branch is fetched, the remote does not
    answer, the check is due at level 1, and the answer is OUTDATED. *)
Lemma failed_query_is_not_good :
  ~ failed_query_means_good Sample.system Sample.branch_src 1 Sample.offline_disk.
Proof.
  intros H.
  specialize (H ("refs/heads/main", "refs/remotes/origin/main") Sample.repo_url
                Sample.commit_a Sample.offline_disk
                [Exec (show_ref "refs/remotes/origin/main") (Some "/src/repo")]
                2 "" Sample.offline_disk).
  assert (outcome (check_repo Sample.system Sample.branch_src 1 Sample.offline_disk)
          = Return OUTDATED) as Hout by (vm_compute; reflexivity).
  rewrite Hout in H. discriminate H; (lia || vm_compute; reflexivity).
Qed.

Lemma check_repo_failed_remote_query_witness :
  contains (_this_yml Sample.branch_src) "git" = true
  /\ outcome (check_repo Sample.system Sample.branch_src 1 Sample.offline_disk)
     = Return OUTDATED.
Proof.
  split; [reflexivity|].
  refine (proj1 (check_repo_failed_remote_query Sample.system Sample.branch_src 1
                   Sample.offline_disk eq_refl)
            ("refs/heads/main", "refs/remotes/origin/main") Sample.repo_url
            Sample.commit_a Sample.offline_disk
            [Exec (show_ref "refs/remotes/origin/main") (Some "/src/repo")]
            2 "" Sample.offline_disk _ _ _ _ _ _ _);
    (lia || vm_compute; reflexivity).
Defined.

(** C3, as stated, fails: the archive is downloaded, its source directory
    does not exist, and the answer is GOOD. *)
Lemma absent_dir_is_not_missing :
  ~ absent_dir_means_missing Sample.system Sample.archive_src 0 Sample.archive_disk.
Proof.
  intros H. destruct (H eq_refl) as [Hout _].
  vm_compute in Hout. discriminate Hout.
Qed.

Lemma check_repo_absent_dir_witness :
  os_path_isdir Sample.system (source_dir Sample.archive_src) Sample.archive_disk
  = false
  /\ check_repo Sample.system Sample.archive_src 2 Sample.archive_disk
     = (Return GOOD, Sample.archive_disk, [])
  /\ os_path_isdir Sample.system (source_dir Sample.archive_src)
       (Sample.add_dir "/src/zlib" Sample.empty_disk) = true
  /\ check_repo Sample.system Sample.archive_src 2
       (Sample.add_dir "/src/zlib" Sample.empty_disk)
     = (Return MISSING, Sample.add_dir "/src/zlib" Sample.empty_disk, [])
  /\ check_repo Sample.system Sample.tag_src 2 Sample.empty_disk
     = (Return MISSING, Sample.empty_disk, []).
Proof.
  split; [reflexivity|]. split; [|split; [reflexivity|split]].
  - exact (proj2 (check_repo_absent_dir Sample.system Sample.archive_src 2
                    Sample.archive_disk) eq_refl eq_refl).
  - exact (proj2 (check_repo_absent_dir Sample.system Sample.archive_src 2
                    (Sample.add_dir "/src/zlib" Sample.empty_disk))
             eq_refl eq_refl).
  - exact (proj1 (check_repo_absent_dir Sample.system Sample.tag_src 2
                    Sample.empty_disk) eq_refl eq_refl).
Defined.

(** C2, as stated, fails: a tag whose source has a [fixed_commit] in the
    commit record is fetched with the depth-limiting flag. *)
Lemma depth_with_a_pin :
  ~ depth_only_when_unpinned Sample.system Sample.pinned Sample.tag_src
      Sample.empty_disk.
Proof.
  intros H. destruct (H eq_refl eq_refl) as (_ & _ & Hpin & _).
  vm_compute in Hpin. discriminate Hpin.
Qed.

Lemma fetch_repo_depth_flag_witness :
  contains (_this_yml Sample.branch_src) "git" = true
  /\ (outcome (fetch_repo Sample.system Sample.pinned Sample.branch_src
                 Sample.empty_disk) = Return tt ->
      existsb is_fetch
        (trace (fetch_repo Sample.system Sample.pinned Sample.branch_src
                  Sample.empty_disk)) = true)
  /\ forall ev,
       ev ∈ trace (fetch_repo Sample.system Sample.pinned Sample.branch_src
                     Sample.empty_disk) ->
       is_fetch ev = true ->
       exists git url,
         shutil_which Sample.system "git" Sample.empty_disk = Some git
         /\ Sample.branch_yml !! "git" = Some (YStr url)
         /\ ev = Exec [git; "fetch"; url; "refs/heads/main:refs/remotes/origin/main"]
                   (Some "/src/repo").
Proof.
  pose proof (fetch_repo_depth_flag Sample.system Sample.pinned Sample.branch_src
                Sample.empty_disk eq_refl) as (Hshape & _ & Hruns).
  split; [reflexivity|]. split; [exact Hruns|]. exact Hshape.
Defined.

Lemma fetch_repo_rolling_never_shallow_witness :
  contains (_this_yml (Sample.src_of Sample.branch_yml true)) "git" = true
  /\ is_rolling_version (Sample.src_of Sample.branch_yml true) = true
  /\ existsb is_shallow_fetch
       (trace (fetch_repo Sample.system Sample.no_pins
                 (Sample.src_of Sample.branch_yml true) Sample.empty_disk)) = false
  /\ existsb is_fetch
       (trace (fetch_repo Sample.system Sample.no_pins
                 (Sample.src_of Sample.branch_yml true) Sample.empty_disk)) = true.
Proof.
  pose proof (fetch_repo_rolling_never_shallow Sample.system Sample.no_pins
                (Sample.src_of Sample.branch_yml true) Sample.empty_disk
                eq_refl eq_refl) as (_ & Hnone & Hruns).
  split; [reflexivity|]. split; [reflexivity|]. split.
  - apply Hnone. vm_compute. discriminate.
  - apply Hruns. vm_compute. reflexivity.
Defined.

Lemma check_repo_tag_level_one_witness :
  contains (_this_yml Sample.tag_src) "git" = true
  /\ contains (_this_yml Sample.tag_src) "tag" = true
  /\ check_repo Sample.system Sample.tag_src 1 Sample.fetched_disk
     = check_repo Sample.system Sample.tag_src 0 Sample.fetched_disk.
Proof.
  split; [reflexivity|]. split; [reflexivity|].
  exact (proj1 (check_repo_tag_level_one Sample.system Sample.tag_src
                  Sample.fetched_disk eq_refl eq_refl)).
Defined.

Lemma check_repo_local_lookup_witness :
  Sample.which "git" Sample.empty_disk = Some "/usr/bin/git"
  /\ contains (_this_yml Sample.branch_src) "git" = true
  /\ os_path_isdir Sample.system "/src/repo"
       (Sample.add_dir "/src/repo" Sample.empty_disk) = true
  /\ check_repo Sample.system Sample.branch_src 2
       (Sample.add_dir "/src/repo" Sample.empty_disk)
     = (Return MISSING, Sample.add_dir "/src/repo" Sample.empty_disk,
        [Exec ["git"; "show-ref"; "--verify"; "refs/remotes/origin/main"]
           (Some "/src/repo")])
  /\ get_local_commit Sample.system Sample.branch_src "refs/remotes/origin/main"
       Sample.fetched_disk
     = (Return (Some Sample.commit_a), Sample.fetched_disk,
        [Exec ["git"; "show-ref"; "--verify"; "refs/remotes/origin/main"]
           (Some "/src/repo")])
  /\ check_repo Sample.system Sample.branch_src 0 Sample.fetched_disk
     = (Return GOOD, Sample.fetched_disk,
        [Exec ["git"; "show-ref"; "--verify"; "refs/remotes/origin/main"]
           (Some "/src/repo")])
  /\ check_repo Sample.system Sample.branch_src 1 Sample.fetched_disk
     = (Return OUTDATED, Sample.fetched_disk,
        [Exec ["git"; "show-ref"; "--verify"; "refs/remotes/origin/main"]
           (Some "/src/repo");
         LogInfo "Checking for remote updates of repo";
         Exec ["git"; "ls-remote"; "--exit-code"; Sample.repo_url;
               "refs/heads/main"] None]).
Proof.
  assert (forall d : Sample.disk,
             (exists t, _this_yml Sample.branch_src !! "tag" = Some (YStr t)
                        /\ "refs/heads/main" = "refs/tags/" +:+ t
                        /\ "refs/remotes/origin/main" = "refs/tags/" +:+ t)
             \/ (exists b, _this_yml Sample.branch_src !! "tag" = None
                           /\ _this_yml Sample.branch_src !! "branch"
                              = Some (YStr b)
                           /\ "refs/heads/main" = "refs/heads/" +:+ b
                           /\ "refs/remotes/origin/main"
                              = "refs/remotes/origin/" +:+ b)) as Href.
  { intros _. right. exists "main". repeat split; reflexivity. }
  split; [reflexivity|]. split; [reflexivity|]. split; [reflexivity|]. split.
  { refine (proj1 (proj2 (check_repo_local_lookup Sample.system Sample.branch_src 2
                            (Sample.add_dir "/src/repo" Sample.empty_disk)
                            "refs/heads/main" "refs/remotes/origin/main"
                            eq_refl eq_refl (Href Sample.empty_disk)))
              128 "" _ eq_refl _). lia. }
  pose proof (fun n =>
    proj2 (proj2 (check_repo_local_lookup Sample.system Sample.branch_src n
                    Sample.fetched_disk
                    "refs/heads/main" "refs/remotes/origin/main"
                    eq_refl eq_refl (Href Sample.fetched_disk)))
      Sample.commit_a "refs/remotes/origin/main" PyStr.nl Sample.fetched_disk
      eq_refl eq_refl eq_refl eq_refl eq_refl (or_intror eq_refl)) as Hfound.
  split; [exact (proj1 (Hfound 0))|]. split.
  - exact (proj1 (proj2 (Hfound 0)) eq_refl).
  - exact (proj2 (proj2 (Hfound 1)) eq_refl (Some Sample.commit_b)
             Sample.fetched_disk _ eq_refl).
Defined.

Lemma check_repo_non_git_witness :
  contains (_this_yml Sample.hg_src) "git" = false
  /\ well_formed (_this_yml Sample.hg_src) = true
  /\ (outcome (check_repo Sample.system Sample.hg_src 2 Sample.fetched_disk)
      = Return GOOD
      \/ outcome (check_repo Sample.system Sample.hg_src 2 Sample.fetched_disk)
         = Return MISSING).
Proof.
  split; [reflexivity|]. split; [reflexivity|].
  apply (proj2 (check_repo_non_git Sample.system Sample.hg_src 2
                  Sample.fetched_disk eq_refl)); [reflexivity|].
  intros argv cwd why. unfold Sample.system, os_run, Sample.run. discriminate.
Defined.

Lemma check_repo_read_only_witness :
  queries_read_only Sample.system
  /\ final_fs (check_repo Sample.system Sample.branch_src 2 Sample.fetched_disk)
     = Sample.fetched_disk.
Proof.
  split; [exact sample_queries_read_only|].
  exact (proj1 (check_repo_read_only Sample.system Sample.branch_src 2
                  Sample.fetched_disk sample_queries_read_only)).
Defined.

Lemma commit_extraction_total_witness :
  PyStr.all_chars PyStr.is_hex Sample.commit_a = true
  /\ get_local_commit Sample.system Sample.branch_src "refs/remotes/origin/main"
       Sample.fetched_disk
     = (Return (Some Sample.commit_a), Sample.fetched_disk,
        [Exec ["git"; "show-ref"; "--verify"; "refs/remotes/origin/main"]
           (Some "/src/repo")])
  /\ get_remote_commit Sample.system Sample.branch_src "refs/heads/main"
       Sample.fetched_disk
     = (Return (Some Sample.commit_b), Sample.fetched_disk,
        [Exec ["git"; "ls-remote"; "--exit-code"; Sample.repo_url; "refs/heads/main"]
           None]).
Proof.
  split; [reflexivity|]. split.
  - exact (proj1 (commit_extraction_total Sample.system Sample.branch_src
                    "refs/remotes/origin/main" Sample.fetched_disk
                    Sample.fetched_disk Sample.commit_a
                    "refs/remotes/origin/main" PyStr.nl
                    eq_refl eq_refl eq_refl (or_intror eq_refl))
             eq_refl eq_refl).
  - exact (proj2 (commit_extraction_total Sample.system Sample.branch_src
                    "refs/heads/main" Sample.fetched_disk
                    Sample.fetched_disk Sample.commit_b
                    "refs/heads/main" PyStr.nl
                    eq_refl eq_refl eq_refl (or_intror eq_refl))
             eq_refl Sample.repo_url eq_refl eq_refl).
Defined.

(** C4. With no [git] on PATH the fetch of a git source does not raise an
    exception that carries the hint to install the tool: the name
    [GenericException] is not bound in the module, and what is raised is
    [NameError]. The same holds for [hg] and [svn]. *)
Lemma fetch_repo_tool_missing :
  fetch_repo Sample.system Sample.no_pins Sample.branch_src Sample.bare_disk
  = (Raise (NameError "GenericException"), Sample.bare_disk, [])
  /\ fetch_repo Sample.system Sample.no_pins Sample.hg_src Sample.bare_disk
     = (Raise (NameError "GenericException"), Sample.bare_disk, [])
  /\ fetch_repo Sample.system Sample.no_pins Sample.svn_src Sample.bare_disk
     = (Raise (NameError "GenericException"), Sample.bare_disk, []).
Proof. repeat split; vm_compute; reflexivity. Qed.

(** * Further properties of the status check *)

Section StatusCheck.
Context {FS : Type} (os : OS FS).
Implicit Types (src : Source) (fs : FS).

Lemma get_remote_commit_trace src ref fs :
  trace (get_remote_commit os src ref fs) = []
  \/ exists url, _this_yml src !! "git" = Some (YStr url)
                 /\ trace (get_remote_commit os src ref fs)
                    = [Exec (ls_remote url ref) None].
Proof.
  destruct (_this_yml src !! "git") as [[| | |url]|] eqn:Hurl.
  1-3: left; unfold get_remote_commit, getitem; rewrite Hurl;
    unfold of_result; rewrite bind_ret;
    unfold bind, query_lines, try_except_CalledProcessError,
      subprocess_check_output, run_process, bind; reflexivity.
  - right. exists url. split; [done|].
    by rewrite (get_remote_commit_eq os src url).
  - left. unfold get_remote_commit, getitem. by rewrite Hurl.
Qed.

(** The events of a status check, in order: nothing; or the local
    look-up alone; or the local look-up, the log line and, unless the URL
    is not a string, the remote query; or, for mercurial, the manifest
    query alone. *)
Lemma check_repo_trace src check_remotes fs :
  let t := trace (check_repo os src check_remotes fs) in
  t = []
  \/ (contains (_this_yml src) "git" = true
      /\ exists ref tracking,
           git_refs (_this_yml src) = Return (ref, tracking)
           /\ let look := Exec (show_ref tracking) (Some (source_dir src)) in
              let log := LogInfo ("Checking for remote updates of " +:+ name src) in
              t = [look]
              \/ (do_check_remote (_this_yml src) check_remotes = true
                  /\ (t = [look; log]
                      \/ exists url,
                           _this_yml src !! "git" = Some (YStr url)
                           /\ t = [look; log; Exec (ls_remote url ref) None])))
  \/ (contains (_this_yml src) "git" = false
      /\ exists rev,
           t = [Exec ["hg"; "manifest"; "--pager"; "never"; "-r"; rev]
                  (Some (source_dir src))]).
Proof.
  cbv zeta.
  destruct (contains (_this_yml src) "git") eqn:Hgit.
  - destruct (os_path_isdir os (source_dir src) fs) eqn:Hdir;
      [|left; by rewrite git_absent_dir].
    destruct (git_refs (_this_yml src)) as [[ref tracking]|e] eqn:Hrefs;
      [|left; by rewrite (git_refs_Raise os _ _ _ e)].
    right; left. split; [done|]. exists ref, tracking. split; [done|].
    rewrite (check_repo_git os _ _ _ _ Hgit Hdir Hrefs). cbv zeta. cbn [fst snd].
    destruct (lines_of _ fs) as [l fs1]. cbn [fst snd].
    destruct (commit_of PyStr.SPACE l) as [[local|]|e]; try by left.
    destruct (do_check_remote _ _); [|by left].
    right. split; [done|].
    destruct (get_remote_commit_trace src ref fs1) as [Ht|(url & Hurl & Ht)];
      unfold trace in *; cbn [fst snd]; rewrite Ht; [by left|right; eauto].
  - destruct (contains (_this_yml src) "hg") eqn:Hhg.
    + unfold check_repo. rewrite Hgit, Hhg, bind_read.
      destruct (os_path_isdir os (source_dir src) fs); [|by left]. cbn [negb].
      destruct (if contains (_this_yml src) "tag" then _ else _) as [rev|e];
        [|by left].
      cbn [of_result]. rewrite bind_ret.
      unfold subprocess_call, run_process, bind. cbn [argv_strs arg_str].
      destruct rev as [| | |rev]; try by left.
      right; right. split; [done|]. exists rev.
      destruct (os_run _ _ _ _) as [rc out fs'|why]; [|done].
      unfold ret, trace. cbn [fst snd]. by destruct (rc =? 0).
    + left. unfold check_repo. rewrite Hgit, Hhg.
      destruct (contains (_this_yml src) "svn").
      * rewrite bind_read. by destruct (os_path_isdir _ _ _).
      * destruct (contains (_this_yml src) "url"); [|done].
        unfold py_assert. rewrite bind_ret, bind_read.
        by destruct (os_access_F_OK _ _ _).
Qed.

Lemma do_check_remote_true yml n :
  do_check_remote yml n = true <->
  2 <= n \/ (1 <= n /\ contains yml "tag" = false).
Proof.
  unfold do_check_remote.
  destruct (n >=? 2) eqn:E2, (n >=? 1) eqn:E1, (contains yml "tag");
    cbn [andb negb]; split; intros Hx; try done; try (left; lia);
    try (right; split; [lia|done]);
    destruct Hx as [?|[? ?]]; (lia || done).
Qed.

(** X1. A status check reaches the network at most once, and only for a
    git source whose remote check is due: [check_remotes] is at least 2,
    or at least 1 for a source without a tag. In particular a check with
    [check_remotes = 0] never does, whatever the local and the remote
    commits are. *)
Theorem check_repo_network_when_due src check_remotes fs :
  (length (filter is_network (trace (check_repo os src check_remotes fs))) <= 1)%nat
  /\ (filter is_network (trace (check_repo os src check_remotes fs)) <> [] ->
      contains (_this_yml src) "git" = true
      /\ (2 <= check_remotes
          \/ (1 <= check_remotes /\ contains (_this_yml src) "tag" = false))).
Proof.
  destruct (check_repo_trace src check_remotes fs)
    as [Ht|[(Hgit & ref & tracking & _ & Ht)|(_ & rev & Ht)]];
    cbv zeta in Ht.
  - rewrite Ht. split; [simpl; lia|done].
  - destruct Ht as [Ht|(Hdue & [Ht|(url & _ & Ht)])]; rewrite Ht.
    + split; [vm_compute; lia|done].
    + split; [vm_compute; lia|done].
    + split; [vm_compute; lia|]. intros _. split; [done|].
      by apply do_check_remote_true.
  - rewrite Ht. split; [vm_compute; lia|done].
Qed.

Lemma check_repo_due src n m fs :
  do_check_remote (_this_yml src) n = do_check_remote (_this_yml src) m ->
  check_repo os src n fs = check_repo os src m fs.
Proof.
  intros Hdue. destruct (contains (_this_yml src) "git") eqn:Hgit.
  - destruct (os_path_isdir os (source_dir src) fs) eqn:Hdir;
      [|by rewrite !git_absent_dir].
    destruct (git_refs (_this_yml src)) as [refs|e] eqn:Hrefs;
      [|by rewrite !(git_refs_Raise os _ _ _ e)].
    rewrite !(check_repo_git os _ _ _ refs) by done. by rewrite Hdue.
  - unfold check_repo. by rewrite Hgit.
Qed.

(** X2. The status check knows three levels only: every [check_remotes]
    of 2 or more behaves as 2, and every [check_remotes] of 0 or less
    behaves as 0 (same answer, same file system, same events). *)
Theorem check_repo_level_saturates src check_remotes fs :
  (2 <= check_remotes ->
   check_repo os src check_remotes fs = check_repo os src 2 fs)
  /\ (check_remotes <= 0 ->
      check_repo os src check_remotes fs = check_repo os src 0 fs).
Proof.
  split; intros Hn; apply check_repo_due; apply eq_true_iff_eq;
    rewrite !do_check_remote_true; intuition lia.
Qed.

(** X3. For a source that is not a git source the status check does not
    depend on [check_remotes] at all and never reaches the network: no
    remote comparison exists for mercurial, subversion and archives. *)
Theorem check_repo_non_git_level_free src n m fs :
  contains (_this_yml src) "git" = false ->
  check_repo os src n fs = check_repo os src m fs
  /\ filter is_network (trace (check_repo os src n fs)) = [].
Proof.
  intros Hgit. split.
  - unfold check_repo. by rewrite Hgit.
  - destruct (check_repo_trace src n fs)
      as [Ht|[(Hgit' & _)|(_ & rev & Ht)]]; cbv zeta in *.
    + by rewrite Ht.
    + congruence.
    + by rewrite Ht.
Qed.

(** X4. When the remote check of a git source is due and both commits
    are found, the answer is GOOD when they are the same commit and
    OUTDATED when they differ; the events are those of the local
    look-up, the log line, and those of the remote query. *)
Theorem check_repo_compares_commits src check_remotes fs refs
    local remote fs1 t1 fs2 t2 :
  contains (_this_yml src) "git" = true ->
  os_path_isdir os (source_dir src) fs = true ->
  git_refs (_this_yml src) = Return refs ->
  do_check_remote (_this_yml src) check_remotes = true ->
  get_local_commit os src refs.2 fs = (Return (Some local), fs1, t1) ->
  get_remote_commit os src refs.1 fs1 = (Return (Some remote), fs2, t2) ->
  check_repo os src check_remotes fs
  = (Return (if String.eqb local remote then GOOD else OUTDATED), fs2,
     t1 ++ LogInfo ("Checking for remote updates of " +:+ name src) :: t2).
Proof.
  intros Hgit Hdir Hrefs Hdue Hlocal Hremote.
  rewrite (check_repo_git os _ _ _ _ Hgit Hdir Hrefs). cbv zeta.
  rewrite get_local_commit_eq in Hlocal. cbv zeta in Hlocal.
  destruct (lines_of _ fs) as [l fs1']. cbn [fst snd] in *.
  injection Hlocal as Hl -> <-. rewrite Hl, Hdue, Hremote.
  cbn [fst snd ne app]. by destruct (String.eqb local remote).
Qed.

(** X5. The status of a subversion source is GOOD exactly when the
    source directory exists, and that of an archive source exactly when
    the archive file exists; neither check starts a process, logs or
    changes the file system. *)
Theorem check_repo_svn_archive src check_remotes fs :
  contains (_this_yml src) "git" = false ->
  contains (_this_yml src) "hg" = false ->
  (contains (_this_yml src) "svn" = true ->
   check_repo os src check_remotes fs
   = (Return (if os_path_isdir os (source_dir src) fs then GOOD else MISSING),
      fs, []))
  /\ (contains (_this_yml src) "svn" = false ->
      contains (_this_yml src) "url" = true ->
      check_repo os src check_remotes fs
      = (Return (if os_access_F_OK os (source_archive_file src) fs
                 then GOOD else MISSING), fs, [])).
Proof.
  intros Hgit Hhg. unfold check_repo. rewrite Hgit, Hhg. split.
  - intros ->. rewrite bind_read. by destruct (os_path_isdir _ _ _).
  - intros -> ->. unfold py_assert. rewrite bind_ret, bind_read.
    by destruct (os_access_F_OK _ _ _).
Qed.

(** X6. For a mercurial source whose directory exists, the status check
    runs [hg manifest --pager never -r <rev>] in the source directory,
    where the revision is the tag when the descriptor has one, even if it
    has a branch too, and the branch otherwise; the answer is GOOD when
    the process exits with zero and MISSING for any other return code. *)
Theorem check_repo_hg_manifest src check_remotes fs rev rc out fs' :
  contains (_this_yml src) "git" = false ->
  contains (_this_yml src) "hg" = true ->
  os_path_isdir os (source_dir src) fs = true ->
  (_this_yml src !! "tag" = Some (YStr rev)
   \/ (_this_yml src !! "tag" = None
       /\ _this_yml src !! "branch" = Some (YStr rev))) ->
  os_run os ["hg"; "manifest"; "--pager"; "never"; "-r"; rev]
    (Some (source_dir src)) fs = Exited rc out fs' ->
  check_repo os src check_remotes fs
  = (Return (if rc =? 0 then GOOD else MISSING), fs',
     [Exec ["hg"; "manifest"; "--pager"; "never"; "-r"; rev]
        (Some (source_dir src))]).
Proof.
  intros Hgit Hhg Hdir Hrev Hrun.
  rewrite (check_repo_hg os _ _ _ rev); try done.
  - cbv zeta. by rewrite Hrun.
  - unfold contains, getitem.
    destruct Hrev as [Ht|[Ht Hb]]; rewrite Ht; [done|by rewrite Hb].
Qed.

(** X7. A git descriptor that has neither a tag nor a branch is not
    noticed while the source directory is absent, the answer being
    MISSING; once the directory exists the check raises
    [KeyError('branch')] before it starts any process. *)
Theorem check_repo_git_without_ref src check_remotes fs :
  contains (_this_yml src) "git" = true ->
  _this_yml src !! "tag" = None ->
  _this_yml src !! "branch" = None ->
  check_repo os src check_remotes fs
  = (if os_path_isdir os (source_dir src) fs
     then Raise (KeyError "branch") else Return MISSING, fs, []).
Proof.
  intros Hgit Htag Hbranch.
  destruct (os_path_isdir os (source_dir src) fs) eqn:Hdir.
  - apply git_refs_Raise; try done.
    unfold git_refs, contains, getitem. by rewrite Htag, Hbranch.
  - by apply git_absent_dir.
Qed.

(** X8. When no remote check is due, a git source whose local commit
    resolves is GOOD, whatever the remote holds: nothing but the local
    look-up is done. *)
Theorem check_repo_local_only src check_remotes fs refs local fs1 t1 :
  contains (_this_yml src) "git" = true ->
  os_path_isdir os (source_dir src) fs = true ->
  git_refs (_this_yml src) = Return refs ->
  do_check_remote (_this_yml src) check_remotes = false ->
  get_local_commit os src refs.2 fs = (Return (Some local), fs1, t1) ->
  check_repo os src check_remotes fs = (Return GOOD, fs1, t1).
Proof.
  intros Hgit Hdir Hrefs Hdue Hlocal.
  rewrite (check_repo_git os _ _ _ _ Hgit Hdir Hrefs). cbv zeta.
  rewrite get_local_commit_eq in Hlocal. cbv zeta in Hlocal.
  destruct (lines_of _ fs) as [l fs1']. cbn [fst snd] in *.
  injection Hlocal as Hl -> <-. by rewrite Hl, Hdue.
Qed.
End StatusCheck.

(** * Further properties of the reading of commits *)

Section Fields.
Import PyStr.

Lemma split_from_nonempty sep s : forall acc, split_from sep acc s <> [].
Proof.
  induction s as [|c r IH]; intros acc; cbn [split_from]; [done|].
  destruct (Ascii.eqb c sep); [done|apply IH].
Qed.

Lemma split_from_one sep s :
  forall acc b, split_from sep acc s = [b] ->
    b = acc +:+ s /\ occurs sep s = false.
Proof.
  induction s as [|c r IH]; intros acc b; cbn [split_from occurs].
  - intros [= <-]. by rewrite append_nil_r.
  - destruct (Ascii.eqb c sep).
    + intros [= _ Hrest]. by destruct (split_from_nonempty sep r "").
    + intros [-> Hr]%IH. by rewrite snoc_append.
Qed.

Lemma occurs_app sep a b :
  occurs sep (a +:+ b) = occurs sep a || occurs sep b.
Proof.
  induction a as [|c a IH]; [done|]. rewrite append_cons. cbn [occurs].
  by rewrite IH, orb_assoc.
Qed.

Lemma split_from_two sep s :
  forall acc a b, split_from sep acc s = [a; b] ->
    exists pre, a = acc +:+ pre
                /\ s = pre +:+ String sep b
                /\ occurs sep pre = false /\ occurs sep b = false.
Proof.
  induction s as [|c r IH]; intros acc a b; cbn [split_from]; [done|].
  destruct (Ascii.eqb c sep) eqn:Hc.
  - intros [= <- Hrest]. apply split_from_one in Hrest as [-> Hr].
    apply Ascii.eqb_eq in Hc as ->. exists "".
    by rewrite append_nil_r.
  - intros (pre & -> & -> & Hpre & Hb)%IH. exists (String c pre).
    rewrite snoc_append, append_cons. cbn [occurs]. by rewrite Hc.
Qed.

(** The split of a line has exactly two fields precisely when the line
    has exactly one separator, and the fields are what stands before and
    after it. *)
Lemma split_two_iff sep line a b :
  split sep line = [a; b] <->
  line = a +:+ String sep b /\ occurs sep a = false /\ occurs sep b = false.
Proof.
  split.
  - intros (pre & -> & -> & Hpre & Hb)%split_from_two. done.
  - intros (-> & Ha & Hb). by apply split_two_fields.
Qed.
End Fields.

Section Lines.
Import PyStr.



End Lines.

Section Commits.
Context {FS : Type} (os : OS FS).
Implicit Types (src : Source) (fs : FS).

(** X9. The unpacking [(commit, outref) = line.split(sep)] succeeds
    exactly when the line has one separator and no more, and the commit
    is then the text before the separator; a line with no separator, or
    with two or more, raises [ValueError]. *)
Theorem unpack_commit_one_separator sep line fs :
  (forall commit,
      unpack_commit (FS := FS) sep line fs = (Return commit, fs, []) <->
      exists outref,
        line = commit +:+ String sep outref
        /\ PyStr.occurs sep commit = false
        /\ PyStr.occurs sep outref = false)
  /\ ((forall commit, unpack_commit (FS := FS) sep line fs
                      <> (Return commit, fs, [])) ->
      unpack_commit (FS := FS) sep line fs = (Raise ValueError, fs, [])).
Proof.
  unfold unpack_commit. split.
  - intros commit. split.
    + destruct (PyStr.split sep line) as [|a [|b [|? ?]]] eqn:Hsplit; try done.
      intros [= ->]. apply split_two_iff in Hsplit. eauto.
    + intros (outref & Hline & Hc & Ho).
      by rewrite (proj2 (split_two_iff sep line commit outref)).
  - intros Hno.
    destruct (PyStr.split sep line) as [|a [|b [|? ?]]]; try done.
    by destruct (Hno a).
Qed.

Lemma commit_of_lines_of sep rc out fs fs' :
  (commit_of sep (lines_of (Exited rc out fs') fs).1 = Return None <-> rc <> 0)
  /\ (forall commit,
         commit_of sep (lines_of (Exited rc out fs') fs).1
         = Return (Some commit) ->
         rc = 0 /\ PyStr.utf8_valid out = true
         /\ exists outref,
              PyStr.splitlines out = [commit +:+ String sep outref]
              /\ PyStr.occurs sep commit = false
              /\ PyStr.occurs sep outref = false).
Proof.
  unfold lines_of, PyStr.decode.
  destruct (Z.eqb_spec rc 0) as [->|Hrc]; cbn [fst commit_of].
  - destruct (PyStr.utf8_valid out); cbn [commit_of].
    + destruct (PyStr.splitlines out) as [|line [|? ?]];
        cbn [length Nat.eqb nth]; try (split; [split; done|done]).
      destruct (PyStr.split sep line) as [|a [|b [|? ?]]] eqn:Hsplit;
        try (split; [split; done|done]).
      split; [split; done|]. intros commit [= <-].
      apply split_two_iff in Hsplit as (-> & Ha & Hb). eauto 10.
    + split; [split; done|done].
  - split; [done|done].
Qed.

(** X10. The look-ups of commits, once their process has run. The local
    look-up returns [None] exactly when [git show-ref] exits non-zero. It
    returns a commit only when the process exits with zero and its
    output is well-formed UTF-8 of exactly one line, made of the commit,
    one space and a ref, neither of which contains a space. The same
    holds of [git ls-remote] with a tab. *)
Theorem commit_lookup_sound src ref fs rc out fs' :
  (os_run os ["git"; "show-ref"; "--verify"; ref] (Some (source_dir src)) fs
     = Exited rc out fs' ->
   (outcome (get_local_commit os src ref fs) = Return None <-> rc <> 0)
   /\ forall commit,
        outcome (get_local_commit os src ref fs) = Return (Some commit) ->
        rc = 0 /\ PyStr.utf8_valid out = true
        /\ exists outref,
             PyStr.splitlines out = [commit +:+ " " +:+ outref]
             /\ PyStr.occurs PyStr.SPACE commit = false
             /\ PyStr.occurs PyStr.SPACE outref = false)
  /\ (forall url,
         _this_yml src !! "git" = Some (YStr url) ->
         os_run os ["git"; "ls-remote"; "--exit-code"; url; ref] None fs
           = Exited rc out fs' ->
         (outcome (get_remote_commit os src ref fs) = Return None <-> rc <> 0)
         /\ forall commit,
              outcome (get_remote_commit os src ref fs) = Return (Some commit) ->
              rc = 0 /\ PyStr.utf8_valid out = true
              /\ exists outref,
                   PyStr.splitlines out = [commit +:+ PyStr.tab +:+ outref]
                   /\ PyStr.occurs PyStr.TAB commit = false
                   /\ PyStr.occurs PyStr.TAB outref = false).
Proof.
  split.
  - intros Hrun. rewrite get_local_commit_eq. cbv zeta.
    unfold show_ref, outcome. rewrite Hrun. cbn [fst snd].
    apply (commit_of_lines_of PyStr.SPACE).
  - intros url Hurl Hrun. rewrite (get_remote_commit_eq os _ url) by done.
    cbv zeta. unfold ls_remote, outcome. rewrite Hrun. cbn [fst snd].
    apply (commit_of_lines_of PyStr.TAB).
Qed.

(** X11. A [git] that cannot be started is not taken for a missing
    ref: the status check of a git source whose directory exists raises
    the exception of the failed start instead of answering MISSING. *)
Theorem check_repo_git_not_started src check_remotes fs refs why :
  contains (_this_yml src) "git" = true ->
  os_path_isdir os (source_dir src) fs = true ->
  git_refs (_this_yml src) = Return refs ->
  os_run os ["git"; "show-ref"; "--verify"; refs.2] (Some (source_dir src)) fs
    = NotStarted why ->
  check_repo os src check_remotes fs
  = (Raise (spawn_exn why), fs,
     [Exec ["git"; "show-ref"; "--verify"; refs.2] (Some (source_dir src))]).
Proof.
  intros Hgit Hdir Hrefs Hrun.
  rewrite (check_repo_git os _ _ _ _ Hgit Hdir Hrefs). cbv zeta.
  unfold show_ref. rewrite Hrun. cbn [lines_of fst snd commit_of]. done.
Qed.



End Commits.

(** * Further properties of the fetch *)

Section Fetch.
Context {FS : Type} (os : OS FS).
Implicit Types (cfg : Config) (src : Source) (fs : FS).

Lemma check_call_called args argv cwd fs :
  argv_strs args = Return argv ->
  subprocess_check_call os args cwd fs = called os argv cwd fs.
Proof.
  intros Hargs. unfold subprocess_check_call, run_process, bind, called.
  rewrite Hargs. destruct (os_run os argv cwd fs) as [rc out fs'|why]; [|done].
  cbn [fst snd]. by destruct (rc =? 0).
Qed.

(** A well-formed git descriptor always gets its argument vector. *)
Lemma git_fetch_args_well_formed git yml rolling fixed_commit init url :
  yml !! "git" = Some (YStr url) ->
  ref_ok yml = true ->
  exists args,
    git_fetch_args git yml rolling fixed_commit init = Return args
    /\ argv_strs args
       = Return (fetch_argv git url
                   (depth_requested yml rolling fixed_commit init)
                   (ref_args yml)).
Proof.
  intros Hurl Hok.
  assert (exists args, git_fetch_args git yml rolling fixed_commit init
                       = Return args
                       /\ exists argv, argv_strs args = Return argv)
    as (args & Hargs & argv & Hargv).
  { revert Hok. unfold ref_ok, git_fetch_args, contains, getitem, is_str.
    rewrite Hurl.
    destruct (yml !! "tag") as [tag|].
    - destruct tag as [| | |tag]; try done. intros _.
      destruct (if rolling then false else _); eexists; (split; [done|]);
        cbn [app argv_strs arg_str]; eauto.
    - destruct (yml !! "branch") as [[| | |branch]|]; try done. intros _.
      cbn [str_add].
      destruct (init && _); eexists; (split; [done|]);
        cbn [app argv_strs arg_str]; eauto. }
  exists args. split; [done|].
  destruct (git_fetch_args_argv _ _ _ _ _ _ _ Hargs Hargv) as (url' & Hurl' & ->).
  congruence.
Qed.

Lemma trace_called argv cwd fs : trace (called os argv cwd fs) = [Exec argv cwd].
Proof. unfold called. by destruct (os_run _ _ _ _). Qed.

(** X13. An update of a git source whose directory exists starts one
    process and nothing else: [git fetch], run in the source directory
    with the path that [shutil.which] found. The repository is neither
    created nor initialised again; a branch is fetched without the
    depth-limiting flag, a tag with it unless shallow fetches are
    switched off or the version is rolling. A non-zero return code is
    raised as [CalledProcessError]. *)
Theorem fetch_repo_update cfg src fs git url :
  contains (_this_yml src) "git" = true ->
  shutil_which os "git" fs = Some git ->
  os_path_isdir os (source_dir src) fs = true ->
  _this_yml src !! "git" = Some (YStr url) ->
  ref_ok (_this_yml src) = true ->
  fetch_repo os cfg src fs
  = called os
      (fetch_argv git url
         (contains (_this_yml src) "tag"
          && shallow_allowed (_this_yml src) (is_rolling_version src))
         (ref_args (_this_yml src)))
      (Some (source_dir src)) fs.
Proof.
  intros Hgit Hwhich Hdir Hurl Hok.
  rewrite (fetch_repo_git os _ _ _ git) by done. cbv zeta.
  rewrite Hdir. cbn [negb]. rewrite bind_ret.
  destruct (git_fetch_args_well_formed git (_this_yml src)
              (is_rolling_version src) (fixed_commit_of cfg src) false url)
    as (args & Hargs & Hargv); try done.
  rewrite (bind_of_result_Return _ args) by done.
  rewrite (check_call_called _ _ _ _ Hargv).
  unfold depth_requested. by destruct (contains _ "tag").
Qed.

Lemma prepare_trace git src fs url :
  _this_yml src !! "git" = Some (YStr url) ->
  let steps := [Exec [git; "init"] (Some (source_dir src));
                Exec [git; "remote"; "add"; "origin"; url]
                  (Some (source_dir src))] in
  trace (prepare os git src fs) `prefix_of` steps
  /\ (outcome (prepare os git src fs) = Return tt ->
      trace (prepare os git src fs) = steps).
Proof.
  intros Hurl steps. unfold prepare.
  rewrite trace_bind, outcome_bind, trace_update. cbn [app].
  destruct (outcome (update _ fs)) as [[]|e]; [|split; [apply prefix_nil|done]].
  rewrite trace_bind, outcome_bind.
  rewrite (check_call_called _ [git; "init"]) by done.
  rewrite trace_called.
  destruct (outcome (called _ _ _ _)) as [[]|e];
    [|split; [by exists (tl steps)|done]].
  rewrite trace_bind, outcome_bind. unfold getitem. rewrite Hurl.
  cbn [of_result ret trace outcome fst snd app].
  rewrite (check_call_called _ [git; "remote"; "add"; "origin"; url]) by done.
  rewrite trace_called. split; [by exists []|done].
Qed.

(** X14. The processes of the fetch of a well-formed git source, in
    order: on the first fetch [git init] and
    [git remote add origin <url>], then, always, [git fetch]; all of them
    in the source directory. The fetch stops at the first of them that
    fails, so what it started is a prefix of this list, and when it
    returns it has started the whole list. *)
Theorem fetch_repo_git_order cfg src fs git url :
  contains (_this_yml src) "git" = true ->
  shutil_which os "git" fs = Some git ->
  _this_yml src !! "git" = Some (YStr url) ->
  ref_ok (_this_yml src) = true ->
  let cwd := Some (source_dir src) in
  let init := negb (os_path_isdir os (source_dir src) fs) in
  let steps :=
    (if init
     then [Exec [git; "init"] cwd; Exec [git; "remote"; "add"; "origin"; url] cwd]
     else [])
    ++ [Exec (fetch_argv git url
                (depth_requested (_this_yml src) (is_rolling_version src)
                   (fixed_commit_of cfg src) init)
                (ref_args (_this_yml src))) cwd] in
  trace (fetch_repo os cfg src fs) `prefix_of` steps
  /\ (outcome (fetch_repo os cfg src fs) = Return tt ->
      trace (fetch_repo os cfg src fs) = steps).
Proof.
  intros Hgit Hwhich Hurl Hok cwd init steps.
  rewrite (fetch_repo_git os _ _ _ git) by done. cbv zeta. fold init.
  destruct (git_fetch_args_well_formed git (_this_yml src)
              (is_rolling_version src) (fixed_commit_of cfg src) init url)
    as (args & Hargs & Hargv); try done.
  rewrite trace_bind, outcome_bind.
  assert (forall fs1,
             trace (bind (of_result
                            (git_fetch_args git (_this_yml src)
                               (is_rolling_version src)
                               (fixed_commit_of cfg src) init))
                      (fun args => subprocess_check_call os args cwd) fs1)
             = [Exec (fetch_argv git url
                        (depth_requested (_this_yml src) (is_rolling_version src)
                           (fixed_commit_of cfg src) init)
                        (ref_args (_this_yml src))) cwd]) as Hfetch.
  { intros fs1. rewrite (bind_of_result_Return _ args) by done.
    rewrite (check_call_called _ _ _ _ Hargv). apply trace_called. }
  unfold steps. destruct init.
  - destruct (prepare_trace git src fs url Hurl) as [Hpre Hall].
    cbv zeta in *. fold cwd in Hpre, Hall.
    destruct (outcome (prepare os git src fs)) as [[]|e].
    + rewrite Hall, Hfetch by done. split; [done|done].
    + rewrite app_nil_r. split; [|done].
      by apply prefix_app_r.
  - cbn [ret trace outcome final_fs fst snd app]. rewrite Hfetch.
    split; [done|done].
Qed.

Lemma bind_update {B} (f : FS -> result FS) (k : unit -> M FS B) fs :
  bind (update f) k fs
  = match f fs with
    | Return fs1 => k tt fs1
    | Raise e => (Raise e, fs, [])
    end.
Proof.
  unfold bind, update. destruct (f fs) as [fs1|e]; [|done].
  by destruct (k tt fs1) as [[? ?] ?].
Qed.

(** X15. The fetch of a mercurial source, once [hg] is found: the source
    directory is created, whether or not it was there, and
    [hg clone <url> <source directory>] is run without a working
    directory of its own; a failure to create the directory is raised
    before any process is started, and a non-zero return code of the
    clone is raised as [CalledProcessError]. No depth limit, tag or
    branch is passed. *)
Theorem fetch_repo_hg cfg src fs hg url :
  contains (_this_yml src) "git" = false ->
  contains (_this_yml src) "hg" = true ->
  shutil_which os "hg" fs = Some hg ->
  _this_yml src !! "hg" = Some (YStr url) ->
  fetch_repo os cfg src fs
  = match try_mkdir os (source_dir src) fs with
    | Return fs1 => called os [hg; "clone"; url; source_dir src] None fs1
    | Raise e => (Raise e, fs, [])
    end.
Proof.
  intros Hgit Hhg Hwhich Hurl. unfold fetch_repo.
  rewrite Hgit, Hhg, bind_read, Hwhich, bind_update.
  destruct (try_mkdir _ _ _) as [fs1|e]; [|done].
  unfold getitem. rewrite Hurl. cbn [of_result]. rewrite bind_ret.
  by apply check_call_called.
Qed.

(** X16. The fetch of a subversion source, once [svn] is found: the
    source directory is created and [svn co <url> <source directory>] is
    run, with the same treatment of failures as for mercurial. *)
Theorem fetch_repo_svn cfg src fs svn url :
  contains (_this_yml src) "git" = false ->
  contains (_this_yml src) "hg" = false ->
  contains (_this_yml src) "svn" = true ->
  shutil_which os "svn" fs = Some svn ->
  _this_yml src !! "svn" = Some (YStr url) ->
  fetch_repo os cfg src fs
  = match try_mkdir os (source_dir src) fs with
    | Return fs1 => called os [svn; "co"; url; source_dir src] None fs1
    | Raise e => (Raise e, fs, [])
    end.
Proof.
  intros Hgit Hhg Hsvn Hwhich Hurl. unfold fetch_repo.
  rewrite Hgit, Hhg, Hsvn, bind_read, Hwhich, bind_update.
  destruct (try_mkdir _ _ _) as [fs1|e]; [|done].
  unfold getitem. rewrite Hurl. cbn [of_result]. rewrite bind_ret.
  by apply check_call_called.
Qed.

Lemma fetch_repo_url cfg src fs url :
  contains (_this_yml src) "git" = false ->
  contains (_this_yml src) "hg" = false ->
  contains (_this_yml src) "svn" = false ->
  _this_yml src !! "url" = Some (YStr url) ->
  fetch_repo os cfg src fs
  = match try_mkdir os (source_dir src) fs with
    | Return fs1 =>
        match os_urlopen os url fs1 with
        | Return body =>
            match os_write_file os (source_archive_file src) body fs1 with
            | Return fs2 => (Return tt, fs2, [HttpGet url])
            | Raise e => (Raise e, fs1, [HttpGet url])
            end
        | Raise e => (Raise e, fs1, [HttpGet url])
        end
    | Raise e => (Raise e, fs, [])
    end.
Proof.
  intros Hgit Hhg Hsvn Hurl. unfold fetch_repo.
  rewrite Hgit, Hhg, Hsvn. unfold contains, getitem. rewrite Hurl.
  cbn [py_assert of_result]. rewrite bind_ret, bind_update.
  destruct (try_mkdir _ _ _) as [fs1|e]; [|done].
  rewrite bind_ret, bind_emit. cbv zeta. unfold bind, update.
  destruct (os_urlopen _ _ _) as [body|e]; [|done].
  by destruct (os_write_file _ _ _ _).
Qed.

(** X17. The fetch of an archive source needs no tool and starts no
    process; when the directory can be created, the URL answers and the
    file can be written, it returns with the body of the answer written
    to the archive file, after one HTTP request. *)
Theorem fetch_repo_archive cfg src fs url :
  contains (_this_yml src) "git" = false ->
  contains (_this_yml src) "hg" = false ->
  contains (_this_yml src) "svn" = false ->
  _this_yml src !! "url" = Some (YStr url) ->
  filter is_exec (trace (fetch_repo os cfg src fs)) = []
  /\ forall fs1 body fs2,
       try_mkdir os (source_dir src) fs = Return fs1 ->
       os_urlopen os url fs1 = Return body ->
       os_write_file os (source_archive_file src) body fs1 = Return fs2 ->
       fetch_repo os cfg src fs = (Return tt, fs2, [HttpGet url]).
Proof.
  intros Hgit Hhg Hsvn Hurl. rewrite (fetch_repo_url _ _ _ url) by done.
  split.
  - destruct (try_mkdir _ _ _) as [fs1|e]; [|done].
    destruct (os_urlopen _ _ _) as [body|e]; [|done].
    by destruct (os_write_file _ _ _ _).
  - by intros fs1 body fs2 -> -> ->.
Qed.

(** X18. Fetch, then check: after a fetch of an archive source that
    returned, the status check answers GOOD at every level, provided a
    file that was written exists. *)
Theorem fetch_then_check_archive cfg src fs url check_remotes :
  written_files_exist os ->
  contains (_this_yml src) "git" = false ->
  contains (_this_yml src) "hg" = false ->
  contains (_this_yml src) "svn" = false ->
  _this_yml src !! "url" = Some (YStr url) ->
  outcome (fetch_repo os cfg src fs) = Return tt ->
  outcome (check_repo os src check_remotes (final_fs (fetch_repo os cfg src fs)))
  = Return GOOD.
Proof.
  intros Hos Hgit Hhg Hsvn Hurl. rewrite (fetch_repo_url _ _ _ url) by done.
  destruct (try_mkdir _ _ _) as [fs1|e]; [|done].
  destruct (os_urlopen _ _ _) as [body|e]; [|done].
  destruct (os_write_file _ _ _ _) as [fs2|e] eqn:Hwrite; [|done].
  intros _. unfold final_fs. cbn [fst snd].
  unfold check_repo. rewrite Hgit, Hhg, Hsvn.
  unfold contains. rewrite Hurl. cbn [py_assert].
  rewrite bind_ret, bind_read. by rewrite (Hos _ _ _ _ Hwrite).
Qed.

Lemma git_fetch_args_pin git yml rolling fc fc' init :
  contains yml "tag" = true \/ is_not_None fc = is_not_None fc' ->
  git_fetch_args git yml rolling fc init = git_fetch_args git yml rolling fc' init.
Proof.
  unfold git_fetch_args. intros [->| ->]; [done|done].
Qed.

(** X19. The commit record matters to the fetch of a git branch only,
    and only through whether it pins the source: for a source that is not
    a git source, for a git tag, and for two records that both pin or both
    do not pin the source, the fetch is the same computation. *)
Theorem fetch_repo_pin_relevance cfg cfg' src fs :
  contains (_this_yml src) "git" = false
  \/ contains (_this_yml src) "tag" = true
  \/ is_not_None (fixed_commit_of cfg src) = is_not_None (fixed_commit_of cfg' src) ->
  fetch_repo os cfg src fs = fetch_repo os cfg' src fs.
Proof.
  intros Hcase. destruct (contains (_this_yml src) "git") eqn:Hgit.
  - destruct Hcase as [?|Hcase]; [done|].
    destruct (shutil_which os "git" fs) as [git|] eqn:Hwhich;
      [|by rewrite !fetch_repo_no_tool].
    rewrite !(fetch_repo_git os _ _ _ git) by done. cbv zeta.
    by rewrite (git_fetch_args_pin git _ _ (fixed_commit_of cfg src)
                  (fixed_commit_of cfg' src)).
  - unfold fetch_repo. by rewrite Hgit.
Qed.

(** X20. A git descriptor that has neither a tag nor a branch is found
    faulty late: the fetch first prepares the repository when the source
    directory is absent (creation, [git init], [git remote add]) and
    only then raises [KeyError('branch')]; it never starts
    [git fetch]. *)
Theorem fetch_repo_git_without_ref cfg src fs git :
  contains (_this_yml src) "git" = true ->
  _this_yml src !! "tag" = None ->
  _this_yml src !! "branch" = None ->
  shutil_which os "git" fs = Some git ->
  fetch_repo os cfg src fs
  = bind (if negb (os_path_isdir os (source_dir src) fs)
          then prepare os git src else ret tt)
      (fun _ => raise (KeyError "branch")) fs
  /\ existsb is_fetch (trace (fetch_repo os cfg src fs)) = false.
Proof.
  intros Hgit Htag Hbranch Hwhich.
  assert (forall init,
             git_fetch_args git (_this_yml src) (is_rolling_version src)
               (fixed_commit_of cfg src) init = Raise (KeyError "branch"))
    as Hargs.
  { intros init. revert Hgit. unfold git_fetch_args, contains, getitem.
    rewrite Htag, Hbranch. by destruct (_this_yml src !! "git"). }
  rewrite (fetch_repo_git os _ _ _ git) by done. cbv zeta.
  rewrite Hargs. split; [done|].
  rewrite trace_bind. rewrite existsb_app.
  apply orb_false_iff. split.
  - apply not_true_is_false.
    intros (ev & Hev & Hfetch)%existsb_exists.
    apply list_elem_of_In in Hev.
    destruct (negb _); [|by apply elem_of_nil in Hev].
    apply (prepare_no_fetch os) in Hev. congruence.
  - by destruct (outcome _).
Qed.

(** X21. A descriptor with none of the keys [git], [hg], [svn] and [url]
    fails the assertion of the last branch, in the status check as in
    the fetch, before anything is looked at or done. *)
Theorem no_origin_fails_assertion cfg src check_remotes fs :
  contains (_this_yml src) "git" = false ->
  contains (_this_yml src) "hg" = false ->
  contains (_this_yml src) "svn" = false ->
  contains (_this_yml src) "url" = false ->
  check_repo os src check_remotes fs = (Raise AssertionError, fs, [])
  /\ fetch_repo os cfg src fs = (Raise AssertionError, fs, []).
Proof.
  intros Hgit Hhg Hsvn Hurl. unfold check_repo, fetch_repo.
  by rewrite Hgit, Hhg, Hsvn, Hurl.
Qed.

Lemma prepare_runs_git git src fs ev :
  ev ∈ trace (prepare os git src fs) ->
  exists rest cwd, ev = Exec (git :: rest) cwd.
Proof.
  unfold prepare. rewrite trace_bind, trace_update. cbn [app].
  destruct (outcome (update _ fs)); [|by intros ?%elem_of_nil].
  rewrite trace_bind, trace_check_call. cbn [argv_strs arg_str app].
  intros [->|Hev]%elem_of_cons; [eauto|]. revert Hev.
  destruct (outcome (subprocess_check_call _ _ _ _)); [|by intros ?%elem_of_nil].
  rewrite trace_bind, trace_of_result. cbn [app].
  destruct (outcome (of_result _ _)) as [url|]; [|by intros ?%elem_of_nil].
  rewrite trace_check_call. cbn [argv_strs arg_str].
  destruct url; try by intros ?%elem_of_nil.
  intros ->%list_elem_of_singleton. eauto.
Qed.

(** X22. Every process that the fetch starts is the tool of the origin
    kind, under the path that [shutil.which] returned for it on the file
    system before the call: [git] for a git source, [hg] for mercurial,
    [svn] for subversion. No process is started for an archive, nor when
    the tool is not found. *)
Theorem fetch_repo_runs_found_tool cfg src fs argv cwd :
  Exec argv cwd ∈ trace (fetch_repo os cfg src fs) ->
  exists tool path,
    tool ∈ ["git"; "hg"; "svn"]
    /\ contains (_this_yml src) tool = true
    /\ shutil_which os tool fs = Some path
    /\ head argv = Some path.
Proof.
  destruct (contains (_this_yml src) "git") eqn:Hgit.
  { destruct (shutil_which os "git" fs) as [git|] eqn:Hwhich;
      [|rewrite fetch_repo_no_tool by done; by intros ?%elem_of_nil].
    intros Hev. exists "git", git. repeat split; [set_solver|done..|].
    revert Hev. rewrite (fetch_repo_git os _ _ _ git) by done. cbv zeta.
    rewrite trace_bind. intros [Hev|Hev]%elem_of_app.
    - destruct (negb _); [|by apply elem_of_nil in Hev].
      apply prepare_runs_git in Hev as (rest & cwd' & [= -> _]). done.
    - destruct (outcome _); [|by apply elem_of_nil in Hev].
      rewrite trace_bind, trace_of_result in Hev. cbn [app] in Hev.
      destruct (git_fetch_args _ _ _ _ _) as [args|e] eqn:Hargs;
        [|by apply elem_of_nil in Hev].
      cbn [of_result outcome ret fst] in Hev.
      rewrite trace_check_call in Hev.
      destruct (argv_strs args) as [argv'|e] eqn:Hargv;
        [|by apply elem_of_nil in Hev].
      apply list_elem_of_singleton in Hev as [= -> _].
      by destruct (git_fetch_args_argv _ _ _ _ _ _ _ Hargs Hargv)
        as (url & _ & ->). }
  unfold fetch_repo. rewrite Hgit.
  destruct (contains (_this_yml src) "hg") eqn:Hhg.
  { rewrite bind_read.
    destruct (shutil_which os "hg" fs) as [hg|] eqn:Hwhich;
      [|by intros ?%elem_of_nil].
    intros Hev. exists "hg", hg. repeat split; [set_solver|done..|].
    revert Hev. rewrite bind_update.
    destruct (try_mkdir _ _ _) as [fs1|e]; [|by intros ?%elem_of_nil].
    rewrite trace_bind, trace_of_result. cbn [app].
    destruct (outcome _) as [url|]; [|by intros ?%elem_of_nil].
    rewrite trace_check_call. cbn [argv_strs arg_str].
    destruct url; try by intros ?%elem_of_nil.
    by intros [= -> _]%list_elem_of_singleton. }
  destruct (contains (_this_yml src) "svn") eqn:Hsvn.
  { rewrite bind_read.
    destruct (shutil_which os "svn" fs) as [svn|] eqn:Hwhich;
      [|by intros ?%elem_of_nil].
    intros Hev. exists "svn", svn. repeat split; [set_solver|done..|].
    revert Hev. rewrite bind_update.
    destruct (try_mkdir _ _ _) as [fs1|e]; [|by intros ?%elem_of_nil].
    rewrite trace_bind, trace_of_result. cbn [app].
    destruct (outcome _) as [url|]; [|by intros ?%elem_of_nil].
    rewrite trace_check_call. cbn [argv_strs arg_str].
    destruct url; try by intros ?%elem_of_nil.
    by intros [= -> _]%list_elem_of_singleton. }
  destruct (contains (_this_yml src) "url"); [|by intros ?%elem_of_nil].
  cbn [py_assert]. rewrite bind_ret, bind_update.
  destruct (try_mkdir _ _ _) as [fs1|e]; [|by intros ?%elem_of_nil].
  rewrite trace_bind, trace_of_result. cbn [app].
  destruct (outcome _) as [url|]; [|by intros ?%elem_of_nil].
  destruct url as [| | |url]; try by intros ?%elem_of_nil.
  rewrite bind_emit. cbv zeta. unfold trace. cbn [snd].
  intros [?|Hev]%elem_of_cons; [done|]. revert Hev.
  unfold bind, update. destruct (os_urlopen _ _ _) as [body|e];
    [|by intros ?%elem_of_nil].
  destruct (os_write_file _ _ _ _); by intros ?%elem_of_nil.
Qed.

(** X23. Fetch, then check: after a fetch of a subversion source that
    returned, the status check answers GOOD at every level, provided a
    directory that was created exists and the checkout does not remove
    it. *)
Theorem fetch_then_check_svn cfg src fs svn url check_remotes :
  mkdir_makes_dir os ->
  processes_keep_dirs os ->
  contains (_this_yml src) "git" = false ->
  contains (_this_yml src) "hg" = false ->
  contains (_this_yml src) "svn" = true ->
  shutil_which os "svn" fs = Some svn ->
  _this_yml src !! "svn" = Some (YStr url) ->
  outcome (fetch_repo os cfg src fs) = Return tt ->
  outcome (check_repo os src check_remotes (final_fs (fetch_repo os cfg src fs)))
  = Return GOOD.
Proof.
  intros Hmk Hkeep Hgit Hhg Hsvn Hwhich Hurl. unfold fetch_repo at 1 2.
  rewrite Hgit, Hhg, Hsvn, bind_read, Hwhich, bind_update.
  destruct (try_mkdir _ _ _) as [fs1|e] eqn:Hmkdir; [|done].
  unfold getitem. rewrite Hurl. cbn [of_result]. rewrite bind_ret.
  rewrite (check_call_called _ [svn; "co"; url; source_dir src]) by done.
  unfold called.
  destruct (os_run _ _ _ _) as [rc out fs2|why] eqn:Hrun; [|done].
  intros _. unfold final_fs. cbn [fst snd].
  unfold check_repo. rewrite Hgit, Hhg, Hsvn, bind_read.
  by rewrite (Hkeep _ _ _ _ _ _ _ Hrun (Hmk _ _ _ Hmkdir)).
Qed.
End Fetch.

(** ** The further properties on the sample system *)

Lemma sample_written_files_exist : written_files_exist Sample.system.
Proof.
  intros path body fs fs' [= <-]. cbn.
  unfold Sample.has_file, Sample.add_file. cbn.
  by rewrite String.eqb_refl, orb_true_r.
Qed.

Lemma sample_mkdir_makes_dir : mkdir_makes_dir Sample.system.
Proof.
  intros path fs fs' [= <-]. cbn. unfold Sample.has_dir, Sample.add_dir. cbn.
  destruct (existsb (String.eqb path) (Sample.dirs fs)) eqn:E; [done|].
  cbn. by rewrite String.eqb_refl.
Qed.

Lemma sample_processes_keep_dirs : processes_keep_dirs Sample.system.
Proof. by intros argv cwd fs rc out fs' path [= _ _ <-]. Qed.

Lemma check_repo_non_git_level_free_witness :
  contains (_this_yml Sample.hg_src) "git" = false
  /\ check_repo Sample.system Sample.hg_src 2 Sample.fetched_disk
     = check_repo Sample.system Sample.hg_src 0 Sample.fetched_disk.
Proof.
  split; [reflexivity|].
  exact (proj1 (check_repo_non_git_level_free Sample.system Sample.hg_src 2 0
                  Sample.fetched_disk eq_refl)).
Defined.

Lemma check_repo_compares_commits_witness :
  do_check_remote (_this_yml Sample.branch_src) 1 = true
  /\ outcome (check_repo Sample.system Sample.branch_src 1 Sample.fetched_disk)
     = Return OUTDATED.
Proof.
  split; [reflexivity|].
  rewrite (check_repo_compares_commits Sample.system Sample.branch_src 1
             Sample.fetched_disk
             ("refs/heads/main", "refs/remotes/origin/main")
             Sample.commit_a Sample.commit_b
             Sample.fetched_disk
             [Exec (show_ref "refs/remotes/origin/main") (Some "/src/repo")]
             Sample.fetched_disk
             [Exec (ls_remote Sample.repo_url "refs/heads/main") None]);
    vm_compute; reflexivity.
Defined.

Lemma check_repo_svn_archive_witness :
  contains (_this_yml Sample.svn_src) "git" = false
  /\ contains (_this_yml Sample.svn_src) "hg" = false
  /\ check_repo Sample.system Sample.svn_src 1 Sample.fetched_disk
     = (Return GOOD, Sample.fetched_disk, [])
  /\ check_repo Sample.system Sample.archive_src 1 Sample.empty_disk
     = (Return MISSING, Sample.empty_disk, []).
Proof.
  split; [reflexivity|]. split; [reflexivity|]. split.
  - exact (proj1 (check_repo_svn_archive Sample.system Sample.svn_src 1
                    Sample.fetched_disk eq_refl eq_refl) eq_refl).
  - exact (proj2 (check_repo_svn_archive Sample.system Sample.archive_src 1
                    Sample.empty_disk eq_refl eq_refl) eq_refl eq_refl).
Defined.

Lemma check_repo_hg_manifest_witness :
  contains (_this_yml Sample.hg_src) "hg" = true
  /\ check_repo Sample.system Sample.hg_src 0 Sample.offline_disk
     = (Return MISSING, Sample.offline_disk,
        [Exec ["hg"; "manifest"; "--pager"; "never"; "-r"; "default"]
           (Some "/src/repo")]).
Proof.
  split; [reflexivity|].
  exact (check_repo_hg_manifest Sample.system Sample.hg_src 0 Sample.offline_disk
           "default" 255 "" Sample.offline_disk eq_refl eq_refl eq_refl
           (or_intror (conj eq_refl eq_refl)) eq_refl).
Defined.

Lemma check_repo_git_without_ref_witness :
  contains (_this_yml Faulty.ref_less_src) "git" = true
  /\ check_repo Sample.system Faulty.ref_less_src 0 Sample.empty_disk
     = (Return MISSING, Sample.empty_disk, [])
  /\ check_repo Sample.system Faulty.ref_less_src 0 Sample.fetched_disk
     = (Raise (KeyError "branch"), Sample.fetched_disk, []).
Proof.
  split; [reflexivity|]. split.
  - exact (check_repo_git_without_ref Sample.system Faulty.ref_less_src 0
             Sample.empty_disk eq_refl eq_refl eq_refl).
  - exact (check_repo_git_without_ref Sample.system Faulty.ref_less_src 0
             Sample.fetched_disk eq_refl eq_refl eq_refl).
Defined.

Lemma check_repo_git_not_started_witness :
  contains (_this_yml Sample.tag_src) "git" = true
  /\ check_repo Faulty.no_exec_system Sample.tag_src 0 Sample.fetched_disk
     = (Raise (OSError "FileNotFoundError"), Sample.fetched_disk,
        [Exec ["git"; "show-ref"; "--verify"; "refs/tags/v1.0"] (Some "/src/repo")]).
Proof.
  split; [reflexivity|].
  exact (check_repo_git_not_started Faulty.no_exec_system Sample.tag_src 0
           Sample.fetched_disk ("refs/tags/v1.0", "refs/tags/v1.0") FileNotFound
           eq_refl eq_refl eq_refl eq_refl).
Defined.

Lemma check_repo_local_only_witness :
  do_check_remote (_this_yml Sample.branch_src) 0 = false
  /\ check_repo Sample.system Sample.branch_src 0 Sample.fetched_disk
     = (Return GOOD, Sample.fetched_disk,
        [Exec (show_ref "refs/remotes/origin/main") (Some "/src/repo")]).
Proof.
  split; [reflexivity|].
  apply (check_repo_local_only Sample.system Sample.branch_src 0
           Sample.fetched_disk ("refs/heads/main", "refs/remotes/origin/main")
           Sample.commit_a);
    vm_compute; reflexivity.
Defined.

Lemma fetch_repo_update_witness :
  os_path_isdir Sample.system (source_dir Sample.branch_src) Sample.fetched_disk
  = true
  /\ fetch_repo Sample.system Sample.no_pins Sample.branch_src Sample.fetched_disk
     = (Return tt, Sample.fetched_disk,
        [Exec ["/usr/bin/git"; "fetch"; Sample.repo_url;
               "refs/heads/main:refs/remotes/origin/main"] (Some "/src/repo")]).
Proof.
  split; [reflexivity|].
  exact (fetch_repo_update Sample.system Sample.no_pins Sample.branch_src
           Sample.fetched_disk "/usr/bin/git" Sample.repo_url
           eq_refl eq_refl eq_refl eq_refl eq_refl).
Defined.

Lemma fetch_repo_git_order_witness :
  ref_ok (_this_yml Sample.branch_src) = true
  /\ trace (fetch_repo Sample.system Sample.no_pins Sample.branch_src
              Sample.empty_disk)
     = [Exec ["/usr/bin/git"; "init"] (Some "/src/repo");
        Exec ["/usr/bin/git"; "remote"; "add"; "origin"; Sample.repo_url]
          (Some "/src/repo");
        Exec ["/usr/bin/git"; "fetch"; "--depth=1"; Sample.repo_url;
              "refs/heads/main:refs/remotes/origin/main"] (Some "/src/repo")].
Proof.
  split; [reflexivity|].
  exact (proj2 (fetch_repo_git_order Sample.system Sample.no_pins Sample.branch_src
                  Sample.empty_disk "/usr/bin/git" Sample.repo_url
                  eq_refl eq_refl eq_refl eq_refl) eq_refl).
Defined.

Lemma fetch_repo_hg_witness :
  contains (_this_yml Sample.hg_src) "hg" = true
  /\ fetch_repo Sample.system Sample.no_pins Sample.hg_src Sample.empty_disk
     = (Return tt, Sample.add_dir "/src/repo" Sample.empty_disk,
        [Exec ["/usr/bin/hg"; "clone"; "https://example/hg"; "/src/repo"] None]).
Proof.
  split; [reflexivity|].
  exact (fetch_repo_hg Sample.system Sample.no_pins Sample.hg_src
           Sample.empty_disk "/usr/bin/hg" "https://example/hg"
           eq_refl eq_refl eq_refl eq_refl).
Defined.

Lemma fetch_repo_svn_witness :
  contains (_this_yml Sample.svn_src) "svn" = true
  /\ fetch_repo Sample.system Sample.no_pins Sample.svn_src Sample.empty_disk
     = (Return tt, Sample.add_dir "/src/repo" Sample.empty_disk,
        [Exec ["/usr/bin/svn"; "co"; "https://example/svn"; "/src/repo"] None]).
Proof.
  split; [reflexivity|].
  exact (fetch_repo_svn Sample.system Sample.no_pins Sample.svn_src
           Sample.empty_disk "/usr/bin/svn" "https://example/svn"
           eq_refl eq_refl eq_refl eq_refl eq_refl).
Defined.

Lemma fetch_repo_archive_witness :
  _this_yml Sample.archive_src !! "url" = Some (YStr "https://example/zlib.tar.gz")
  /\ fetch_repo Sample.system Sample.no_pins Sample.archive_src Sample.empty_disk
     = (Return tt,
        Sample.add_file "/src/zlib.tar.gz" "archive"
          (Sample.add_dir "/src/zlib" Sample.empty_disk),
        [HttpGet "https://example/zlib.tar.gz"]).
Proof.
  split; [reflexivity|].
  exact (proj2 (fetch_repo_archive Sample.system Sample.no_pins Sample.archive_src
                  Sample.empty_disk "https://example/zlib.tar.gz"
                  eq_refl eq_refl eq_refl eq_refl)
           _ _ _ eq_refl eq_refl eq_refl).
Defined.

Lemma fetch_then_check_archive_witness :
  written_files_exist Sample.system
  /\ outcome (check_repo Sample.system Sample.archive_src 2
                (final_fs (fetch_repo Sample.system Sample.no_pins
                             Sample.archive_src Sample.empty_disk)))
     = Return GOOD.
Proof.
  split; [exact sample_written_files_exist|].
  exact (fetch_then_check_archive Sample.system Sample.no_pins Sample.archive_src
           Sample.empty_disk "https://example/zlib.tar.gz" 2
           sample_written_files_exist eq_refl eq_refl eq_refl eq_refl eq_refl).
Defined.

Lemma fetch_then_check_svn_witness :
  mkdir_makes_dir Sample.system /\ processes_keep_dirs Sample.system
  /\ outcome (check_repo Sample.system Sample.svn_src 2
                (final_fs (fetch_repo Sample.system Sample.no_pins
                             Sample.svn_src Sample.empty_disk)))
     = Return GOOD.
Proof.
  split; [exact sample_mkdir_makes_dir|].
  split; [exact sample_processes_keep_dirs|].
  exact (fetch_then_check_svn Sample.system Sample.no_pins Sample.svn_src
           Sample.empty_disk "/usr/bin/svn" "https://example/svn" 2
           sample_mkdir_makes_dir sample_processes_keep_dirs
           eq_refl eq_refl eq_refl eq_refl eq_refl eq_refl).
Defined.

Lemma fetch_repo_pin_relevance_witness :
  contains (_this_yml Sample.tag_src) "tag" = true
  /\ fetch_repo Sample.system Sample.pinned Sample.tag_src Sample.empty_disk
     = fetch_repo Sample.system Sample.no_pins Sample.tag_src Sample.empty_disk.
Proof.
  split; [reflexivity|].
  exact (fetch_repo_pin_relevance Sample.system Sample.pinned Sample.no_pins
           Sample.tag_src Sample.empty_disk (or_intror (or_introl eq_refl))).
Defined.

Lemma fetch_repo_git_without_ref_witness :
  _this_yml Faulty.ref_less_src !! "branch" = None
  /\ outcome (fetch_repo Sample.system Sample.no_pins Faulty.ref_less_src
                Sample.empty_disk) = Raise (KeyError "branch")
  /\ trace (fetch_repo Sample.system Sample.no_pins Faulty.ref_less_src
              Sample.empty_disk)
     = [Exec ["/usr/bin/git"; "init"] (Some "/src/repo");
        Exec ["/usr/bin/git"; "remote"; "add"; "origin"; Sample.repo_url]
          (Some "/src/repo")].
Proof.
  split; [reflexivity|].
  rewrite (proj1 (fetch_repo_git_without_ref Sample.system Sample.no_pins
                    Faulty.ref_less_src Sample.empty_disk "/usr/bin/git"
                    eq_refl eq_refl eq_refl eq_refl)).
  split; reflexivity.
Defined.

Lemma no_origin_fails_assertion_witness :
  contains (_this_yml Faulty.no_origin_src) "url" = false
  /\ check_repo Sample.system Faulty.no_origin_src 0 Sample.empty_disk
     = (Raise AssertionError, Sample.empty_disk, [])
  /\ fetch_repo Sample.system Sample.no_pins Faulty.no_origin_src Sample.empty_disk
     = (Raise AssertionError, Sample.empty_disk, []).
Proof.
  split; [reflexivity|].
  exact (no_origin_fails_assertion Sample.system Sample.no_pins
           Faulty.no_origin_src 0 Sample.empty_disk
           eq_refl eq_refl eq_refl eq_refl).
Defined.

Lemma fetch_repo_runs_found_tool_witness :
  Exec ["/usr/bin/hg"; "clone"; "https://example/hg"; "/src/repo"] None
    ∈ trace (fetch_repo Sample.system Sample.no_pins Sample.hg_src Sample.empty_disk)
  /\ exists tool path,
       tool ∈ ["git"; "hg"; "svn"]
       /\ contains (_this_yml Sample.hg_src) tool = true
       /\ shutil_which Sample.system tool Sample.empty_disk = Some path
       /\ head ["/usr/bin/hg"; "clone"; "https://example/hg"; "/src/repo"]
          = Some path.
Proof.
  assert (Exec ["/usr/bin/hg"; "clone"; "https://example/hg"; "/src/repo"] None
            ∈ trace (fetch_repo Sample.system Sample.no_pins Sample.hg_src
                       Sample.empty_disk)) as Hin.
  { vm_compute. apply list_elem_of_here. }
  split; [exact Hin|].
  exact (fetch_repo_runs_found_tool Sample.system Sample.no_pins Sample.hg_src
           Sample.empty_disk _ _ Hin).
Defined.

Lemma check_repo_network_when_due_witness :
  filter is_network
    (trace (check_repo Sample.system Sample.branch_src 1 Sample.fetched_disk))
  = [Exec (ls_remote Sample.repo_url "refs/heads/main") None]
  /\ (2 <= 1 \/ (1 <= 1 /\ contains (_this_yml Sample.branch_src) "tag" = false)).
Proof.
  split; [vm_compute; reflexivity|].
  apply (proj2 (check_repo_network_when_due Sample.system Sample.branch_src 1
                  Sample.fetched_disk)).
  vm_compute. discriminate.
Defined.

Lemma check_repo_level_saturates_witness :
  check_repo Sample.system Sample.tag_src 5 Sample.fetched_disk
  = check_repo Sample.system Sample.tag_src 2 Sample.fetched_disk
  /\ check_repo Sample.system Sample.branch_src (-1) Sample.fetched_disk
     = check_repo Sample.system Sample.branch_src 0 Sample.fetched_disk.
Proof.
  split.
  - apply (proj1 (check_repo_level_saturates Sample.system Sample.tag_src 5
                    Sample.fetched_disk)). lia.
  - apply (proj2 (check_repo_level_saturates Sample.system Sample.branch_src (-1)
                    Sample.fetched_disk)). lia.
Defined.

Lemma unpack_commit_one_separator_witness :
  exists outref,
    (Sample.commit_a +:+ " refs/tags/v1.0") = Sample.commit_a +:+ String " " outref
    /\ PyStr.occurs " " Sample.commit_a = false
    /\ PyStr.occurs " " outref = false.
Proof.
  apply (proj1 (proj1 (unpack_commit_one_separator " "
                         (Sample.commit_a +:+ " refs/tags/v1.0")
                         Sample.empty_disk) Sample.commit_a)).
  vm_compute. reflexivity.
Defined.

Lemma commit_lookup_sound_witness :
  outcome (get_local_commit Sample.system Sample.tag_src "refs/tags/v1.0"
             Sample.fetched_disk) = Return (Some Sample.commit_a)
  /\ (0 = 0 /\ PyStr.utf8_valid (Sample.commit_a +:+ " refs/tags/v1.0" +:+ PyStr.nl)
               = true
      /\ exists outref,
           PyStr.splitlines (Sample.commit_a +:+ " refs/tags/v1.0" +:+ PyStr.nl)
           = [Sample.commit_a +:+ " " +:+ outref]
           /\ PyStr.occurs PyStr.SPACE Sample.commit_a = false
           /\ PyStr.occurs PyStr.SPACE outref = false).
Proof.
  assert (outcome (get_local_commit Sample.system Sample.tag_src "refs/tags/v1.0"
                     Sample.fetched_disk) = Return (Some Sample.commit_a)) as Hout
    by (vm_compute; reflexivity).
  split; [exact Hout|].
  exact (proj2 (proj1 (commit_lookup_sound Sample.system Sample.tag_src
                         "refs/tags/v1.0" Sample.fetched_disk 0
                         (Sample.commit_a +:+ " refs/tags/v1.0" +:+ PyStr.nl)
                         Sample.fetched_disk) eq_refl)
           Sample.commit_a Hout).
Defined.

